(** * Mail relay service: the send handler of [src/server.js]

    A shallow embedding of [createTransporter], [createSendHandler] and the
    three [/send-email] routes.  The handler is an [async] function: it is
    written here in a small state monad over a [World] that carries the
    wall clock and the log of calls made to the collaborators (mail
    transport, Handlebars engine, timer).  Everything the collaborators
    decide (whether a send is accepted, how long it takes, whether a
    template compiles) is read from a [Collaborators] record, so every
    statement below holds for all behaviours of the mail provider. *)

From Stdlib Require Import QArith Ascii.
From stdpp Require Import gmap strings list fin_maps.
Close Scope Q_scope.

(** ** JavaScript values used by the handler *)

(** Values of a JSON object used as a Handlebars context. *)
Inductive json :=
  | JNull
  | JBool (b : bool)
  | JNum (n : Z)
  | JStr (s : string).

#[global] Instance json_eq_dec : EqDecision json.
Proof. solve_decision. Defined.

(** An [Error] object: [err.message] and what [String(err)] gives. *)
Record JsError := { message : string; to_String : string }.

(** The outcome of an expression that may throw. *)
Inductive completion (A : Type) :=
  | Normal (a : A)
  | Throw (err : JsError).
Arguments Normal {A} a.
Arguments Throw {A} err.

Module JS.
(** Truthiness of an optional string: [undefined] and the empty string
    are falsy. *)
Definition truthy (s : option string) : bool :=
  match s with
  | Some (String _ _) => true
  | _ => false
  end.

(** [${x}] inside a template literal. *)
Definition interpolate (s : option string) : string :=
  match s with
  | Some v => v
  | None => "undefined"
  end.

(** The double quote character, as a one-character string. *)
Definition dquote : string := String "034"%char EmptyString.

(** The number of characters of a string that is held as its UTF-8
    bytes: every byte starts one, except the continuation bytes
    [10xxxxxx].  This is what [minLength] and [maxLength] count. *)
Fixpoint characters (s : string) : nat :=
  match s with
  | EmptyString => 0
  | String c rest =>
      (if (128 <=? nat_of_ascii c)%nat && (nat_of_ascii c <? 192)%nat then 0 else 1)
      + characters rest
  end.
End JS.

(** ** Data model *)

(** Schema [Recipient]: [additionalProperties: false], so a validated
    recipient has an [email] and perhaps a [name], nothing else. *)
Record Recipient := { email : string; name : option string }.

(** [req.body] after schema validation: [recipients] and [subject] are
    required, every other property may be absent. *)
Record Body := {
  recipients : list Recipient;
  subject : string;
  template : option string;
  context : option (gmap string json);
  html : option string;
  from : option string;
  individual : option bool;
  delaySeconds : option Z
}.

(** The defaults of the destructuring
    [{ ..., context = {}, individual = false, delaySeconds = 0 } = req.body]. *)
Definition context_of (b : Body) : gmap string json := default ∅ (context b).
Definition individual_of (b : Body) : bool := default false (individual b).
Definition delaySeconds_of (b : Body) : Z := default 0%Z (delaySeconds b).

(** The content part of the object handed to [sendMail]:
    [...(template ? { template, context } : { html })]. *)
Inductive Content :=
  | TemplateContent (tpl : string) (ctx : gmap string json)
  | HtmlContent (body : option string).

(** The object handed to [transporterInstance.sendMail]. *)
Record Message := {
  msg_from : string;
  msg_to : option string;
  msg_bcc : option string;
  msg_subject : string;
  msg_content : Content
}.

(** What the transport resolves with. *)
Record SentInfo := {
  messageId : string;
  accepted : list string;
  rejected : list string
}.

(** A settled promise. *)
Inductive Settled :=
  | Fulfilled (value : SentInfo)
  | Rejected (reason : JsError).

(** A pending [sendMail] promise: how it will settle and after how many
    milliseconds. *)
Definition Promise : Type := Settled * nat.

(** A nodemailer transporter, as far as this file looks into it. *)
Record Transporter := { auth_user : string; auth_pass : string }.

(** Entries of the [ok] and [fail] arrays. *)
Record OkEntry := {
  ok_recipient : string;
  ok_messageId : string;
  ok_accepted : list string
}.

Record FailEntry := { fail_recipient : string; fail_error : string }.

(** The body of the HTTP response. *)
Inductive Payload :=
  | PError (error : string) (msg : string)
  | PValidation
  | PBcc (id : string) (acc rej : list string)
  | PIndividual (ok : list OkEntry) (fail : list FailEntry)
  | PDelayed (totalSent : nat) (durationSeconds : Q)
             (ok : list OkEntry) (fail : list FailEntry).

Record Reply := { code : Z; payload : Payload }.

(** The [mode] property of a response body, when it has one. *)
Definition mode_of (p : Payload) : option string :=
  match p with
  | PBcc _ _ _ => Some "bcc"
  | PIndividual _ _ => Some "individual"
  | PDelayed _ _ _ _ => Some "individual_delayed"
  | _ => None
  end.

(** ** The world of an [async] handler *)

(** What the handler does to the outside, in the order it does it: the
    calls to the collaborators, and the points where it waits for
    promises of [sendMail] to settle ([EAwait n]: for [n] of them). *)
Inductive Event :=
  | ECompile (source : string)
  | ERender (data : gmap string json)
  | ESleep (ms : Z)
  | ESendMail (mail : Message)
  | EAwait (promises : nat).

Record World := { clock : Z; events : list Event }.

(** A compiled Handlebars template. *)
Definition Template : Type := gmap string json → completion string.

(** Behaviour of the collaborators.  [transport_send] answers a
    [sendMail] call from the transporter, the log so far and the message:
    how the promise settles and after how many milliseconds.
    [engine_compile] is [hbs.compile], a call into the package
    [nodemailer-express-handlebars]: whether it returns a template or
    throws is left open here, and so is what a template returns or throws
    when it is applied ([installed_compile] below is what the package as
    installed does).  [timer_wait ms] is the time that really passes during
    [sleep(ms)].  [format_email] is the validator's [format: "email"]. *)
Record Collaborators := {
  transport_send : Transporter → list Event → Message → Promise;
  engine_compile : string → completion Template;
  timer_wait : Z → Z;
  format_email : string → bool
}.

Definition IO (A : Type) : Type := World → A * World.

#[global] Instance IO_ret : MRet IO := λ A a w, (a, w).
#[global] Instance IO_bind : MBind IO :=
  λ A B f m w, let (a, w') := m w in f a w'.

Definition log (e : Event) (w : World) : World :=
  {| clock := clock w; events := events w ++ [e] |}.

Definition tick (ms : Z) (w : World) : World :=
  {| clock := clock w + ms; events := events w |}.

(** The messages handed to the transport, read off a log. *)
Definition sent_mails (evs : list Event) : list Message :=
  omap (λ e, match e with ESendMail m => Some m | _ => None end) evs.

(** The sleeps requested, read off a log. *)
Definition sleeps (evs : list Event) : list Z :=
  omap (λ e, match e with ESleep ms => Some ms | _ => None end) evs.

(** ** Helpers of the handler that touch no collaborator *)

(** [const fmt = (r) => (r.name ? `"${r.name}" <${r.email}>` : r.email)] *)
Definition fmt (r : Recipient) : string :=
  if JS.truthy (name r)
  then JS.dquote +:+ JS.interpolate (name r) +:+ JS.dquote +:+ " <" +:+ email r +:+ ">"
  else email r.

(** [userFromName || defaultFromName || "No-Reply"] *)
Definition displayName (userFromName defaultFromName : option string) : string :=
  if JS.truthy userFromName then JS.interpolate userFromName
  else if JS.truthy defaultFromName then JS.interpolate defaultFromName
  else "No-Reply".

(** [`"${displayName}" <${defaultFromEmail}>`] *)
Definition sender (display : string) (defaultFromEmail : option string) : string :=
  JS.dquote +:+ display +:+ JS.dquote +:+ " <" +:+ JS.interpolate defaultFromEmail +:+ ">".

(** The own properties of a recipient object, as spread by [...r]. *)
Definition fields (r : Recipient) : gmap string json :=
  match name r with
  | Some n => <["name" := JStr n]> {["email" := JStr (email r)]}
  | None => {["email" := JStr (email r)]}
  end.

(** [{ ...context, ...r }]: later spreads overwrite earlier keys. *)
Definition spread (ctx : gmap string json) (r : Recipient) : gmap string json :=
  fields r ∪ ctx.

(** [String(res.reason?.message || res.reason)] *)
Definition reason_text (reason : JsError) : string :=
  match message reason with
  | String _ _ => message reason
  | EmptyString => to_String reason
  end.

Definition ok_entry (target : Recipient) (res : SentInfo) : OkEntry :=
  {| ok_recipient := email target;
     ok_messageId := messageId res;
     ok_accepted := accepted res |}.

Definition CONFIGURATION_ERROR : Reply :=
  {| code := 500;
     payload := PError "CONFIGURATION_ERROR"
       "This email channel is not configured on the server (missing ENV)." |}.

Definition BAD_REQUEST : Reply :=
  {| code := 400;
     payload := PError "BAD_REQUEST" "Provide either 'template' or 'html'." |}.

(** The outer [catch (err)]. *)
Definition EMAIL_SEND_FAILED (err : JsError) : Reply :=
  {| code := 500; payload := PError "EMAIL_SEND_FAILED" (message err) |}.

(** Reading [target.email] when [recipients[idx]] is [undefined]. *)
Definition TypeError_email : JsError :=
  {| message := "Cannot read properties of undefined (reading 'email')";
     to_String := "TypeError: Cannot read properties of undefined (reading 'email')" |}.

(** [results.forEach((res, idx) => ...)]: the entry of [recipients] at the
    same index goes to [ok] or to [fail]; [forEach] skips a hole. *)
Fixpoint forEach_result (recipients : list Recipient) (idx : nat)
    (results : list (option Settled)) (ok : list OkEntry) (fail : list FailEntry)
    : completion (list OkEntry * list FailEntry) :=
  match results with
  | [] => Normal (ok, fail)
  | None :: rest => forEach_result recipients (S idx) rest ok fail
  | Some res :: rest =>
      match recipients !! idx with
      | None => Throw TypeError_email
      | Some target =>
          match res with
          | Fulfilled value =>
              forEach_result recipients (S idx) rest (ok ++ [ok_entry target value]) fail
          | Rejected reason =>
              forEach_result recipients (S idx) rest ok
                (fail ++ [{| fail_recipient := email target;
                             fail_error := reason_text reason |}])
          end
      end
  end.

(** ** [Promise.allSettled] *)

Definition latency (ps : list Promise) (i : nat) : nat :=
  match ps !! i with
  | Some p => p.2
  | None => 0
  end.

(** Promise [i] settles before promise [j] of [order] when it takes no
    longer (it was started first). *)
Fixpoint settle_insert (ps : list Promise) (i : nat) (order : list nat) : list nat :=
  match order with
  | [] => [i]
  | j :: rest =>
      if latency ps i <=? latency ps j then i :: j :: rest
      else j :: settle_insert ps i rest
  end.

(** The order in which the promises settle: by completion time. *)
Definition settle_order (ps : list Promise) : list nat :=
  foldr (settle_insert ps) [] (seq 0 (length ps)).

(** When promise [i] settles, its outcome is stored at index [i] of the
    values array. *)
Definition settle (ps : list Promise) (values : list (option Settled)) (i : nat)
    : list (option Settled) :=
  <[i := fst <$> ps !! i]> values.

Definition settled_values (ps : list Promise) : list (option Settled) :=
  foldl (settle ps) (replicate (length ps) None) (settle_order ps).

(** ** The handler *)

Section Handler.
Variable C : Collaborators.

Definition Date_now : IO Z := λ w, (clock w, w).

(** [const sleep = (ms) => new Promise((resolve) => setTimeout(resolve, ms))],
    awaited. *)
Definition sleep (ms : Z) : IO unit :=
  λ w, (tt, tick (timer_wait C ms) (log (ESleep ms) w)).

(** [transporterInstance.sendMail(mail)]: starts the send. *)
Definition sendMail (t : Transporter) (mail : Message) : IO Promise :=
  λ w, (transport_send C t (events w) mail, log (ESendMail mail) w).

(** [await p] *)
Definition await (p : Promise) : IO Settled :=
  λ w, (p.1, tick (Z.of_nat p.2) (log (EAwait 1) w)).

(** [await Promise.allSettled(ps)]: resumes when the slowest has settled. *)
Definition allSettled (ps : list Promise) : IO (list (option Settled)) :=
  λ w, (settled_values ps,
        tick (Z.of_nat (foldr Nat.max 0%nat (snd <$> ps))) (log (EAwait (length ps)) w)).

(** [hbs.compile(html)] *)
Definition hbs_compile (source : string) : IO (completion Template) :=
  λ w, (engine_compile C source, log (ECompile source) w).

(** [htmlTemplate(r)] *)
Definition render (htmlTemplate : Template) (data : gmap string json)
    : IO (completion string) :=
  λ w, (htmlTemplate data, log (ERender data) w).

Section Request.
Variable transporterInstance : Transporter.
Variable from_ : string.
Variable body : Body.

(** The message of the delayed loop for recipient [r]:
    [finalContext = template ? { ...context, ...r } : {}] and
    [...(template ? { template, context: finalContext } : { html: finalHtml })]. *)
Definition delayed_mail (finalHtml : option string) (r : Recipient) : Message :=
  let finalContext :=
    if JS.truthy (template body) then spread (context_of body) r else ∅ in
  {| msg_from := from_;
     msg_to := Some (fmt r);
     msg_bcc := None;
     msg_subject := subject body;
     msg_content :=
       if JS.truthy (template body)
       then TemplateContent (JS.interpolate (template body)) finalContext
       else HtmlContent finalHtml |}.

(** The body of the inner [try] of the delayed loop, up to the
    awaited [sendMail]: [finalHtml = htmlTemplate ? htmlTemplate(r) :
    undefined], then the send. *)
Definition try_send (htmlTemplate : option Template) (r : Recipient)
    : IO (completion SentInfo) :=
  finalHtml ← match htmlTemplate with
              | Some tpl => out ← render tpl (fields r);
                            mret (match out with
                                  | Normal s => Normal (Some s)
                                  | Throw err => Throw err
                                  end)
              | None => mret (Normal None)
              end;
  match finalHtml with
  | Throw err => mret (Throw err)
  | Normal finalHtml =>
      p ← sendMail transporterInstance (delayed_mail finalHtml r);
      res ← await p;
      mret (match res with
            | Fulfilled value => Normal value
            | Rejected reason => Throw reason
            end)
  end.

(** [for (const [index, r] of recipients.entries()) { ... }] *)
Fixpoint delayed_loop (htmlTemplate : option Template) (index : nat)
    (rs : list Recipient) (ok : list OkEntry) (fail : list FailEntry)
    : IO (list OkEntry * list FailEntry) :=
  match rs with
  | [] => mret (ok, fail)
  | r :: rest =>
      _ ← (if (0 <? index)%nat then sleep (delaySeconds_of body * 1000) else mret tt);
      res ← try_send htmlTemplate r;
      match res with
      | Normal value =>
          delayed_loop htmlTemplate (S index) rest (ok ++ [ok_entry r value]) fail
      | Throw err =>
          delayed_loop htmlTemplate (S index) rest ok
            (fail ++ [{| fail_recipient := email r; fail_error := message err |}])
      end
  end.

(** The content shared by all messages outside the delayed loop. *)
Definition shared_content : Content :=
  if JS.truthy (template body)
  then TemplateContent (JS.interpolate (template body)) (context_of body)
  else HtmlContent (html body).

(** Mode A: delayed sequence. *)
Definition delayed_sequence (startTime : Z) (htmlTemplate : option Template)
    : IO Reply :=
  '(ok, fail) ← delayed_loop htmlTemplate 0 (recipients body) [] [];
  endTime ← Date_now;
  mret {| code := 207;
          payload := PDelayed (length ok) (Qmake (endTime - startTime) 1000) ok fail |}.

(** The message of Mode B for one recipient. *)
Definition parallel_mail (r : Recipient) : Message :=
  {| msg_from := from_;
     msg_to := Some (fmt r);
     msg_bcc := None;
     msg_subject := subject body;
     msg_content := shared_content |}.

(** Mode B: parallel. *)
Definition parallel : IO Reply :=
  promises ← mapM (λ r, sendMail transporterInstance (parallel_mail r))
                  (recipients body);
  results ← allSettled promises;
  mret (match forEach_result (recipients body) 0 results [] [] with
        | Normal (ok, fail) => {| code := 207; payload := PIndividual ok fail |}
        | Throw err => EMAIL_SEND_FAILED err
        end).

(** The single message of BCC mode. *)
Definition bcc_mail : Message :=
  {| msg_from := from_;
     msg_to := None;
     msg_bcc := Some (String.concat ", " (fmt <$> recipients body));
     msg_subject := subject body;
     msg_content := shared_content |}.

(** BCC mode. *)
Definition bcc_mode : IO Reply :=
  p ← sendMail transporterInstance bcc_mail;
  info ← await p;
  mret (match info with
        | Fulfilled value =>
            {| code := 200;
               payload := PBcc (messageId value) (accepted value) (rejected value) |}
        | Rejected err => EMAIL_SEND_FAILED err
        end).

(** [if (individual || delaySeconds > 0) { ... } else { ... }] *)
Definition dispatch : IO Reply :=
  if individual_of body || (0 <? delaySeconds_of body)%Z then
    startTime ← Date_now;
    htmlTemplate ← (if JS.truthy (html body)
                    then c ← hbs_compile (JS.interpolate (html body));
                         mret (match c with
                               | Normal tpl => Normal (Some tpl)
                               | Throw err => Throw err
                               end)
                    else mret (Normal None));
    match htmlTemplate with
    | Throw err => mret (EMAIL_SEND_FAILED err)
    | Normal htmlTemplate =>
        if (0 <? delaySeconds_of body)%Z
        then delayed_sequence startTime htmlTemplate
        else parallel
    end
  else bcc_mode.
End Request.

(** [createSendHandler(transporterInstance, defaultFromEmail,
    defaultFromName)] applied to a request with body [body]. *)
Definition createSendHandler (transporterInstance : option Transporter)
    (defaultFromEmail defaultFromName : option string) (body : Body) : IO Reply :=
  match transporterInstance with
  | None => mret CONFIGURATION_ERROR
  | Some t =>
      let from_ := sender (displayName (from body) defaultFromName) defaultFromEmail in
      if negb (JS.truthy (template body)) && negb (JS.truthy (html body))
      then mret BAD_REQUEST
      else dispatch t from_ body
  end.
End Handler.

(** ** Transporters, accounts and routes *)

(** [createTransporter(label, user, pass)]: [null] when a credential is
    missing ([!user || !pass]).  The label only goes to the warning log. *)
Definition createTransporter (label : string) (user pass : option string)
    : option Transporter :=
  if negb (JS.truthy user) || negb (JS.truthy pass) then None
  else Some {| auth_user := JS.interpolate user; auth_pass := JS.interpolate pass |}.

(** The three mail accounts, one route each. *)
Inductive Account := General | Partnership | Marketing.

Definition mainTransporter (env : gmap string string) : option Transporter :=
  createTransporter "MAIN" (env !! "SMTP_USER") (env !! "SMTP_PASS").

Definition partnershipTransporter (env : gmap string string) : option Transporter :=
  createTransporter "PARTNERSHIP"
    (env !! "SMTP_USER_PARTNERSHIP") (env !! "SMTP_PASS_PARTNERSHIP").

Definition marketingTransporter (env : gmap string string) : option Transporter :=
  createTransporter "MARKETING"
    (env !! "SMTP_USER_MARKETING") (env !! "SMTP_PASS_MARKETING").

(** The environment variables holding the credentials of an account. *)
Definition credentials (env : gmap string string) (a : Account)
    : option string * option string :=
  match a with
  | General => (env !! "SMTP_USER", env !! "SMTP_PASS")
  | Partnership => (env !! "SMTP_USER_PARTNERSHIP", env !! "SMTP_PASS_PARTNERSHIP")
  | Marketing => (env !! "SMTP_USER_MARKETING", env !! "SMTP_PASS_MARKETING")
  end.

(** The default sender email of an account: the second argument of its
    [createSendHandler] call. *)
Definition defaultFromEmail (env : gmap string string) (a : Account) : option string :=
  match a with
  | General => env !! "FROM_EMAIL"
  | Partnership => env !! "SMTP_USER_PARTNERSHIP"
  | Marketing => env !! "SMTP_USER_MARKETING"
  end.

(** The handler registered for each route. *)
Definition handler (C : Collaborators) (env : gmap string string) (a : Account)
    : Body → IO Reply :=
  match a with
  | General =>
      createSendHandler C (mainTransporter env) (env !! "FROM_EMAIL") (env !! "FROM_NAME")
  | Partnership =>
      createSendHandler C (partnershipTransporter env)
        (env !! "SMTP_USER_PARTNERSHIP") (Some "Atlaz Academy")
  | Marketing =>
      createSendHandler C (marketingTransporter env)
        (env !! "SMTP_USER_MARKETING") (Some "Atlaz Academy")
  end.

(** Schema [SendEmailRequest] on a body whose properties have the right
    types: [minItems: 1], [format: "email"], [minLength: 1],
    [maxLength: 255], [anyOf: [{required: ["template"]}, {required:
    ["html"]}]] and [minimum: 0]. *)
Definition SendEmailRequest (C : Collaborators) (b : Body) : bool :=
  (1 <=? length (recipients b))%nat
  && forallb (λ r, format_email C (email r)) (recipients b)
  && (1 <=? JS.characters (subject b))%nat
  && (JS.characters (subject b) <=? 255)%nat
  && (bool_decide (is_Some (template b)) || bool_decide (is_Some (html b)))
  && (0 <=? delaySeconds_of b)%Z.

(** [app.post(path, { schema: { body: { $ref: "SendEmailRequest#" } } },
    createSendHandler(...))] for the route of account [a]: the framework
    validates the body against the route's schema and answers 400 itself
    when it does not fit; otherwise the handler runs. *)
Definition post (C : Collaborators) (env : gmap string string) (a : Account)
    (b : Body) : IO Reply :=
  if SendEmailRequest C b then handler C env a b
  else mret {| code := 400; payload := PValidation |}.

(** ** The delivery strategy selector, as the specification words it *)

Inductive Mode := bcc | individual_mode | individual_delayed.

(** "if delaySeconds > 0 → individual_delayed; else if individualFlag →
    individual; else → bcc" *)
Definition selectMode (individualFlag : bool) (delaySeconds : Z) : Mode :=
  if (0 <? delaySeconds)%Z then individual_delayed
  else if individualFlag then individual_mode
  else bcc.

Definition mode_name (m : Mode) : string :=
  match m with
  | bcc => "bcc"
  | individual_mode => "individual"
  | individual_delayed => "individual_delayed"
  end.

(** ** What a run is expected to leave in the log *)

(** The result of [let htmlTemplate = null; if (html) htmlTemplate =
    hbs.compile(html)]. *)
Definition compiled (C : Collaborators) (body : Body) : completion (option Template) :=
  if JS.truthy (html body)
  then match engine_compile C (JS.interpolate (html body)) with
       | Normal tpl => Normal (Some tpl)
       | Throw err => Throw err
       end
  else Normal None.

Definition compile_plan (body : Body) : list Event :=
  if JS.truthy (html body) then [ECompile (JS.interpolate (html body))] else [].

(** The calls of one iteration's [try] block: the render of the raw
    HTML, if any, and, unless the render threw, the send and the wait
    for it to settle. *)
Definition try_plan (from_ : string) (body : Body) (htmlTemplate : option Template)
    (r : Recipient) : list Event :=
  match htmlTemplate with
  | Some tpl =>
      ERender (fields r) ::
      match tpl (fields r) with
      | Normal s => [ESendMail (delayed_mail from_ body (Some s) r); EAwait 1]
      | Throw _ => []
      end
  | None => [ESendMail (delayed_mail from_ body None r); EAwait 1]
  end.

(** The calls of the iteration at position [index]. *)
Definition iteration_plan (from_ : string) (body : Body) (htmlTemplate : option Template)
    (index : nat) (r : Recipient) : list Event :=
  (if (0 <? index)%nat then [ESleep (delaySeconds_of body * 1000)] else [])
  ++ try_plan from_ body htmlTemplate r.

(** The calls of the whole delayed loop, iteration after iteration. *)
Definition loop_plan (from_ : string) (body : Body) (htmlTemplate : option Template)
    (rs : list Recipient) : list Event :=
  concat (imap (iteration_plan from_ body htmlTemplate) rs).

(** The message the delayed loop hands to the transport for [r], if the
    render of the raw HTML does not throw. *)
Definition attempted_mail (from_ : string) (body : Body) (htmlTemplate : option Template)
    (r : Recipient) : option Message :=
  match htmlTemplate with
  | Some tpl =>
      match tpl (fields r) with
      | Normal s => Some (delayed_mail from_ body (Some s) r)
      | Throw _ => None
      end
  | None => Some (delayed_mail from_ body None r)
  end.

(** The promises of a sequence of [sendMail] calls started one after the
    other from the log [h]. *)
Fixpoint issued (C : Collaborators) (t : Transporter) (h : list Event)
    (mails : list Message) : list Promise :=
  match mails with
  | [] => []
  | m :: rest => transport_send C t h m :: issued C t (h ++ [ESendMail m]) rest
  end.

(** The recipients whose flag is [b], in the order of the list. *)
Definition pick (b : bool) (rs : list Recipient) (flags : list bool) : list Recipient :=
  omap (λ rf : Recipient * bool, if Bool.eqb rf.2 b then Some rf.1 else None)
       (zip rs flags).

Definition fulfilled (s : Settled) : bool :=
  match s with
  | Fulfilled _ => true
  | Rejected _ => false
  end.

(** The fulfilled recipients in the order in which their promises
    settle. *)
Definition completion_order_ok (rs : list Recipient) (ps : list Promise) : list string :=
  omap (λ i, match ps !! i, rs !! i with
             | Some (Fulfilled _, _), Some r => Some (email r)
             | _, _ => None
             end)
       (settle_order ps).

(** The [ok] and [fail] arrays of a response body. *)
Definition reply_ok (r : Reply) : list OkEntry :=
  match payload r with
  | PIndividual ok _ | PDelayed _ _ ok _ => ok
  | _ => []
  end.

Definition reply_fail (r : Reply) : list FailEntry :=
  match payload r with
  | PIndividual _ fail | PDelayed _ _ _ fail => fail
  | _ => []
  end.

(** The merged context the specification describes: the global context
    overridden key by key by the recipient's own fields. *)
Definition merged_context (body : Body) (r : Recipient) : gmap string json :=
  fields r ∪ context_of body.


(** [b] with its [from] property replaced. *)
Definition with_from (f : option string) (b : Body) : Body :=
  {| recipients := recipients b;
     subject := subject b;
     template := template b;
     context := context b;
     html := html b;
     from := f;
     individual := individual b;
     delaySeconds := delaySeconds b |}.

(** A message with its sender blanked. *)
Definition without_from (m : Message) : Message :=
  {| msg_from := EmptyString;
     msg_to := msg_to m;
     msg_bcc := msg_bcc m;
     msg_subject := msg_subject m;
     msg_content := msg_content m |}.

(** The calls a computation adds to the log of [w]. *)
Definition calls {A : Type} (m : IO A) (w : World) : list Event :=
  drop (length (events w)) (events (m w).2).

(** The opening of the [if (individual || delaySeconds > 0)] block, which
    the two individual modes share: the start time is read, the raw HTML,
    if any, is compiled, and a throw of the compiler goes to the outer
    [catch]. *)
Definition individual_block (C : Collaborators) (body : Body)
    (mode : Z → option Template → IO Reply) : IO Reply :=
  λ w,
    let w1 := {| clock := clock w; events := events w ++ compile_plan body |} in
    match compiled C body with
    | Normal htmlTemplate => mode (clock w) htmlTemplate w1
    | Throw err => (EMAIL_SEND_FAILED err, w1)
    end.

(** What the handler does once the mode is chosen. *)
Definition run_mode (C : Collaborators) (t : Transporter) (from_ : string) (body : Body)
    (m : Mode) : IO Reply :=
  match m with
  | bcc => bcc_mode C t from_ body
  | individual_mode => individual_block C body (λ _ _, parallel C t from_ body)
  | individual_delayed => individual_block C body (delayed_sequence C t from_ body)
  end.

(** The handler gets past its two guards: a template or raw HTML is
    given. *)
Definition has_content (body : Body) : bool :=
  JS.truthy (template body) || JS.truthy (html body).

(** The calls of a mode, whatever the transport answers. *)
Definition mode_plan (C : Collaborators) (from_ : string) (body : Body) (m : Mode)
    : list Event :=
  match m with
  | bcc => [ESendMail (bcc_mail from_ body); EAwait 1]
  | individual_mode =>
      compile_plan body
      ++ match compiled C body with
         | Normal _ =>
             (ESendMail <$> (parallel_mail from_ body <$> recipients body))
             ++ [EAwait (length (recipients body))]
         | Throw _ => []
         end
  | individual_delayed =>
      compile_plan body
      ++ match compiled C body with
         | Normal htmlTemplate => loop_plan from_ body htmlTemplate (recipients body)
         | Throw _ => []
         end
  end.

(** The messages of a mode, whatever the transport answers. *)
Definition outbox (C : Collaborators) (from_ : string) (body : Body) (m : Mode)
    : list Message :=
  match m with
  | bcc => [bcc_mail from_ body]
  | individual_mode =>
      match compiled C body with
      | Normal _ => parallel_mail from_ body <$> recipients body
      | Throw _ => []
      end
  | individual_delayed =>
      match compiled C body with
      | Normal htmlTemplate => omap (attempted_mail from_ body htmlTemplate) (recipients body)
      | Throw _ => []
      end
  end.

(** An entry of the blind-copy line: the quoted name and the address in
    angle brackets when the recipient has a name, the bare address
    otherwise.  A name that is the empty string counts as no name. *)
Definition bcc_entry (r : Recipient) : string :=
  match name r with
  | Some (String c n) =>
      JS.dquote +:+ String c n +:+ JS.dquote +:+ " <" +:+ email r +:+ ">"
  | Some EmptyString | None => email r
  end.

(** ** Sample requests *)

(** [hbs] is what [require("nodemailer-express-handlebars")] exports: the
    factory of the plugin, the one [createTransporter] calls as
    [hbs({ ... })].  It has no property [compile], so the call
    [hbs.compile(html)] throws a [TypeError] whatever the HTML is. *)
Definition TypeError_compile : JsError :=
  {| message := "hbs.compile is not a function";
     to_String := "TypeError: hbs.compile is not a function" |}.

Definition installed_compile (source : string) : completion Template :=
  Throw TypeError_compile.

Module Sample.
Definition alice : Recipient :=
  {| email := "alice@example.com"; name := Some "Alice" |}.
Definition bob : Recipient := {| email := "bob@example.com"; name := None |}.

Definition gmail : Transporter :=
  {| auth_user := "no-reply@example.com"; auth_pass := "app-password" |}.

Definition sent : SentInfo :=
  {| messageId := "<1@mail.example>"; accepted := []; rejected := [] |}.

(** A provider that accepts every message; the first send of a request
    takes 50 ms and the later ones 10 ms.  The engine is the installed
    one and the timer is exact. *)
Definition provider : Collaborators :=
  {| transport_send := λ _ h _,
       (Fulfilled sent, match sent_mails h with [] => 50%nat | _ => 10%nat end);
     engine_compile := installed_compile;
     timer_wait := λ ms, ms;
     format_email := λ _, true |}.

Definition start : World := {| clock := 0; events := [] |}.

(** A template request to two recipients. *)
Definition invite (individual : option bool) (delaySeconds : option Z) : Body :=
  {| recipients := [alice; bob];
     subject := "Invitation: Teacher Workshop";
     template := Some "teacher-invite";
     context := Some {["city" := JStr "Jakarta"]};
     html := None;
     from := Some "Atlaz Education";
     individual := individual;
     delaySeconds := delaySeconds |}.

(** A raw HTML request to two recipients. *)
Definition report (individual : option bool) (delaySeconds : option Z) : Body :=
  {| recipients := [alice; bob];
     subject := "Monthly Report";
     template := None;
     context := None;
     html := Some "<p>Hi {{name}},</p>";
     from := None;
     individual := individual;
     delaySeconds := delaySeconds |}.

(** The example of the request schema: raw HTML, one by one, three
    seconds apart. *)
Definition promo : Body :=
  {| recipients := [{| email := "user1@example.com"; name := None |};
                    {| email := "user2@example.com"; name := None |}];
     subject := "Marketing Blast";
     template := None;
     context := None;
     html := Some "<p>Promo content</p>";
     from := None;
     individual := Some true;
     delaySeconds := Some 3%Z |}.

(** A template request whose [from] closes the quoted display name
    itself and goes on with an address of its own. *)
Definition forged : Body :=
  with_from (Some ("Evil" +:+ JS.dquote +:+ " <evil@example.com>")) (invite None None).

(** A request with neither a template nor raw HTML. *)
Definition empty : Body :=
  {| recipients := [alice];
     subject := "Hello";
     template := None;
     context := None;
     html := None;
     from := None;
     individual := None;
     delaySeconds := None |}.

(** An environment that provisions the general account only. *)
Definition env : gmap string string :=
  <["SMTP_USER" := "no-reply@example.com"]>
    (<["SMTP_PASS" := "app-password"]>
       (<["FROM_EMAIL" := "no-reply@example.com"]> ∅)).
End Sample.

(** ** More of version 1.1.0 *)

(** The [ok] array of Mode B from the recipients and the way their
    promises settled: an entry for every fulfilled one, with the
    transport's [messageId] and [accepted]. *)
Definition oks (outcomes : list (Recipient * Settled)) : list OkEntry :=
  omap (λ ro : Recipient * Settled,
          match ro.2 with
          | Fulfilled value => Some (ok_entry ro.1 value)
          | Rejected _ => None
          end)
       outcomes.

(** The [fail] array of Mode B: an entry for every rejected one, with
    [String(res.reason?.message || res.reason)]. *)
Definition fails (outcomes : list (Recipient * Settled)) : list FailEntry :=
  omap (λ ro : Recipient * Settled,
          match ro.2 with
          | Fulfilled _ => None
          | Rejected reason =>
              Some {| fail_recipient := email ro.1; fail_error := reason_text reason |}
          end)
       outcomes.

(** ** Version 1.0.0 of the service: one account, no delay *)

(** [const requiredEnv = [...]] *)
Definition requiredEnv : list string :=
  ["SMTP_PORT"; "SMTP_USER"; "SMTP_PASS"; "FROM_EMAIL"; "FROM_NAME"].

(** [const missing = requiredEnv.filter((k) => !process.env[k])] *)
Definition missing (env : gmap string string) : list string :=
  List.filter (λ k, negb (JS.truthy (env !! k))) requiredEnv.

(** [if (missing.length) app.log.warn(`Missing ENV vars: ${missing.join(", ")}`)]:
    the warning logged at start, if any. *)
Definition env_warning (env : gmap string string) : option string :=
  match missing env with
  | [] => None
  | _ :: _ => Some ("Missing ENV vars: " +:+ String.concat ", " (missing env))
  end.

Definition BAD_REQUEST_1_0 : Reply :=
  {| code := 400;
     payload := PError "BAD_REQUEST"
       "Provide either 'template' (with optional 'context') or 'html'." |}.

(** The handler of [POST /send-email] in version 1.0.0, with the module's
    [transporter]: the sender comes from [process.env], [individual] sends
    all at once and awaits them together, anything else is one BCC
    message.  Its two branches read as Mode B and BCC mode of 1.1.0. *)
Definition send_email_1_0 (C : Collaborators) (transporter : Transporter)
    (env : gmap string string) (body : Body) : IO Reply :=
  let from_ := sender (displayName (from body) (env !! "FROM_NAME")) (env !! "FROM_EMAIL") in
  if negb (JS.truthy (template body)) && negb (JS.truthy (html body))
  then mret BAD_REQUEST_1_0
  else if individual_of body
       then parallel C transporter from_ body
       else bcc_mode C transporter from_ body.

(** ** The first version of the service: raw HTML only *)

(** Its body schema: [recipients], [subject] and [html] are required,
    [additionalProperties: false]. *)
Record Body0 := {
  recipients0 : list Recipient;
  subject0 : string;
  html0 : string;
  from0 : option string;
  individual0 : option bool
}.

(** The same request as a body of the later versions. *)
Definition later_body (b : Body0) : Body :=
  {| recipients := recipients0 b;
     subject := subject0 b;
     template := None;
     context := None;
     html := Some (html0 b);
     from := from0 b;
     individual := individual0 b;
     delaySeconds := None |}.

(** The first handler of [POST /send-email]:
    [const from = `"${userFrom}" <${process.env.FROM_EMAIL}>`], then one
    [sendMail({ from, to: fmt(r), subject, html })] per recipient awaited
    together, or one [sendMail({ from, bcc: bccList, subject, html })]. *)
Definition send_email_0 (C : Collaborators) (transporter : Transporter)
    (env : gmap string string) (b : Body0) : IO Reply :=
  let from_ := sender (JS.interpolate (from0 b)) (env !! "FROM_EMAIL") in
  if default false (individual0 b)
  then parallel C transporter from_ (later_body b)
  else bcc_mode C transporter from_ (later_body b).

(** ** Collaborators that fail *)

Module Faulty.
Definition parse_error : JsError :=
  {| message := "Parse error on line 1"; to_String := "Error: Parse error on line 1" |}.

(** An engine whose compiler throws, with a provider that accepts. *)
Definition compiler : Collaborators :=
  {| transport_send := transport_send Sample.provider;
     engine_compile := λ _, Throw parse_error;
     timer_wait := λ ms, ms;
     format_email := λ _, true |}.

Definition legacy : Body0 :=
  {| recipients0 := [Sample.alice; Sample.bob];
     subject0 := "Hello";
     html0 := "<h1>Hello</h1>";
     from0 := None;
     individual0 := None |}.
End Faulty.

(** The transporter of an account. *)
Definition transporter_of (env : gmap string string) (a : Account) : option Transporter :=
  match a with
  | General => mainTransporter env
  | Partnership => partnershipTransporter env
  | Marketing => marketingTransporter env
  end.

(** An environment with every variable of version 1.0.0. *)
Definition complete_env : gmap string string :=
  <["SMTP_PORT" := "587"]>
    (<["SMTP_USER" := "no-reply@example.com"]>
       (<["SMTP_PASS" := "app-password"]>
          (<["FROM_EMAIL" := "no-reply@example.com"]>
             (<["FROM_NAME" := "Hiatlaz"]> ∅)))).

(** An environment that provisions the partnership account. *)
Definition partner_env : gmap string string :=
  <["SMTP_USER_PARTNERSHIP" := "partnership@example.com"]>
    (<["SMTP_PASS_PARTNERSHIP" := "app-password"]> ∅).

(** ** Version 2.0.0: dynamic templates ([src/unnamed/part_001]) *)

Module V2.

(** Schema [Recipient] with [additionalProperties: true]: besides
    [email] and [name] a recipient carries any other columns ([extra]
    holds the properties other than these two). *)
Record Recipient := {
  email : string;
  name : option string;
  extra : gmap string json
}.

(** Schema [SendEmailRequest] of this version. *)
Record Body := {
  recipients : list Recipient;
  subject : string;
  html : option string;
  template : option string;
  context : option (gmap string json);
  delaySeconds : option Z;
  from : option string;
  individual : option bool
}.

(** The defaults of [{ ..., context = {}, delaySeconds = 0, ...,
    individual = true } = req.body]. *)
Definition context_of (b : Body) : gmap string json := default ∅ (context b).
Definition delaySeconds_of (b : Body) : Z := default 0%Z (delaySeconds b).
Definition individual_of (b : Body) : bool := default true (individual b).

(** [mailOptions]: the properties this version sets on it. *)
Record Mail := {
  mail_from : string;
  mail_to : option string;
  mail_bcc : option string;
  mail_subject : string;
  mail_template : option string;
  mail_context : option (gmap string json);
  mail_html : option string;
  mail_text : option string
}.

Record OkEntry := {
  ok_recipient : string;
  ok_messageId : option string;
  ok_status : string
}.

Inductive Payload :=
  | PError (error : string) (msg : string)
  | PDynamic (totalSent : nat) (durationSeconds : Q)
             (ok : list OkEntry) (fail : list FailEntry)
  | PBulk (id : string) (ok : list OkEntry) (fail : list FailEntry).

(** What the handler passes to [reply.code(...).send(...)], before the
    route's response schema serialises it. *)
Record Reply := { code : Z; payload : Payload }.

Definition mode_of (p : Payload) : option string :=
  match p with
  | PDynamic _ _ _ _ => Some "individual_dynamic"
  | PBulk _ _ _ => Some "bcc_bulk"
  | PError _ _ => None
  end.

Inductive Event :=
  | ECompile (source : string)
  | ERender (data : gmap string json)
  | ESleep (ms : Z)
  | ESendMail (mail : Mail)
  | EAwait.

Record World := { clock : Z; events : list Event }.

(** [transport_send] as before; [handlebars_compile] is
    [handlebars.compile] of the package [handlebars]. *)
Record Collaborators := {
  transport_send : Transporter → list Event → Mail → Promise;
  handlebars_compile : string → completion Template;
  timer_wait : Z → Z
}.

Definition IO (A : Type) : Type := World → A * World.

#[global] Instance IO_ret : MRet IO := λ A a w, (a, w).
#[global] Instance IO_bind : MBind IO :=
  λ A B f m w, let (a, w') := m w in f a w'.

Definition log (e : Event) (w : World) : World :=
  {| clock := clock w; events := events w ++ [e] |}.

Definition tick (ms : Z) (w : World) : World :=
  {| clock := clock w + ms; events := events w |}.

Definition sent_mails (evs : list Event) : list Mail :=
  omap (λ e, match e with ESendMail m => Some m | _ => None end) evs.

Definition sleeps (evs : list Event) : list Z :=
  omap (λ e, match e with ESleep ms => Some ms | _ => None end) evs.

Definition renders (evs : list Event) : list (gmap string json) :=
  omap (λ e, match e with ERender data => Some data | _ => None end) evs.

Definition calls {A : Type} (m : IO A) (w : World) : list Event :=
  drop (length (events w)) (events (m w).2).

(** [const fmt = (r) => (r.name ? `"${r.name}" <${r.email}>` : r.email)] *)
Definition fmt (r : Recipient) : string :=
  if JS.truthy (name r)
  then JS.dquote +:+ JS.interpolate (name r) +:+ JS.dquote +:+ " <" +:+ email r +:+ ">"
  else email r.

(** The own properties of a recipient object, as spread by
    [...recipient]. *)
Definition fields (r : Recipient) : gmap string json :=
  <["email" := JStr (email r)]>
    (match name r with
     | Some n => <["name" := JStr n]> (extra r)
     | None => extra r
     end).

(** [const combinedContext = { ...context, ...recipient }] *)
Definition combinedContext (b : Body) (r : Recipient) : gmap string json :=
  fields r ∪ context_of b.

(** [senderNameOverride || defaultFromName || "Atlaz"] *)
Definition finalSenderName (senderNameOverride defaultFromName : option string) : string :=
  if JS.truthy senderNameOverride then JS.interpolate senderNameOverride
  else if JS.truthy defaultFromName then JS.interpolate defaultFromName
  else "Atlaz".

(** [`"${finalSenderName}" <${defaultFromEmail}>`] *)
Definition fromAddress (b : Body) (defaultFromEmail defaultFromName : option string)
    : string :=
  JS.dquote +:+ finalSenderName (from b) defaultFromName +:+ JS.dquote
  +:+ " <" +:+ JS.interpolate defaultFromEmail +:+ ">".

Definition CONFIG_ERROR : Reply :=
  {| code := 500;
     payload := PError "CONFIG_ERROR" "Channel ini belum dikonfigurasi di .env" |}.

Definition HTML_ERROR : Reply :=
  {| code := 400;
     payload := PError "HTML_ERROR" "Syntax Handlebars di HTML salah." |}.

(** [let mailOptions = { from: fromAddress, to: fmt(recipient), subject }] *)
Definition mailOptions (from_ : string) (b : Body) (r : Recipient) : Mail :=
  {| mail_from := from_;
     mail_to := Some (fmt r);
     mail_bcc := None;
     mail_subject := subject b;
     mail_template := None;
     mail_context := None;
     mail_html := None;
     mail_text := None |}.

(** Mode A: [mailOptions.template = template; mailOptions.context =
    combinedContext]. *)
Definition template_mail (from_ : string) (b : Body) (r : Recipient) : Mail :=
  {| mail_from := from_;
     mail_to := Some (fmt r);
     mail_bcc := None;
     mail_subject := subject b;
     mail_template := template b;
     mail_context := Some (combinedContext b r);
     mail_html := None;
     mail_text := None |}.

(** Mode B: [mailOptions.html = htmlCompiler(combinedContext)]. *)
Definition html_mail (from_ : string) (b : Body) (r : Recipient) (rendered : string)
    : Mail :=
  {| mail_from := from_;
     mail_to := Some (fmt r);
     mail_bcc := None;
     mail_subject := subject b;
     mail_template := None;
     mail_context := None;
     mail_html := Some rendered;
     mail_text := None |}.

(** Mode C: [mailOptions.text = "No content provided."]. *)
Definition text_mail (from_ : string) (b : Body) (r : Recipient) : Mail :=
  {| mail_from := from_;
     mail_to := Some (fmt r);
     mail_bcc := None;
     mail_subject := subject b;
     mail_template := None;
     mail_context := None;
     mail_html := None;
     mail_text := Some "No content provided." |}.

(** The message of BCC mode:
    [{ from, bcc: bccList, subject, html, template, context }]. *)
Definition bcc_mail (from_ : string) (b : Body) : Mail :=
  {| mail_from := from_;
     mail_to := None;
     mail_bcc := Some (String.concat ", " (fmt <$> recipients b));
     mail_subject := subject b;
     mail_template := template b;
     mail_context := Some (context_of b);
     mail_html := html b;
     mail_text := None |}.

Section Handler.
Variable C : Collaborators.

Definition Date_now : IO Z := λ w, (clock w, w).

Definition sleep (ms : Z) : IO unit :=
  λ w, (tt, tick (timer_wait C ms) (log (ESleep ms) w)).

Definition sendMail (t : Transporter) (mail : Mail) : IO Promise :=
  λ w, (transport_send C t (events w) mail, log (ESendMail mail) w).

Definition await (p : Promise) : IO Settled :=
  λ w, (p.1, tick (Z.of_nat p.2) (log EAwait w)).

(** [handlebars.compile(html)] *)
Definition compile (source : string) : IO (completion Template) :=
  λ w, (handlebars_compile C source, log (ECompile source) w).

(** [htmlCompiler(combinedContext)] *)
Definition render (htmlCompiler : Template) (data : gmap string json)
    : IO (completion string) :=
  λ w, (htmlCompiler data, log (ERender data) w).

Section Request.
Variable transporterInstance : Transporter.
Variable from_ : string.
Variable body : Body.

(** The body of the [try] inside the loop. *)
Definition try_send (htmlCompiler : option Template) (recipient : Recipient)
    : IO (completion SentInfo) :=
  options ← (if JS.truthy (template body)
             then mret (Normal (template_mail from_ body recipient))
             else match htmlCompiler with
                  | Some tpl =>
                      out ← render tpl (combinedContext body recipient);
                      mret (match out with
                            | Normal rendered => Normal (html_mail from_ body recipient rendered)
                            | Throw err => Throw err
                            end)
                  | None => mret (Normal (text_mail from_ body recipient))
                  end);
  match options with
  | Throw err => mret (Throw err)
  | Normal options =>
      p ← sendMail transporterInstance options;
      info ← await p;
      mret (match info with
            | Fulfilled value => Normal value
            | Rejected reason => Throw reason
            end)
  end.

(** [for (const [idx, recipient] of recipients.entries()) { ... }] *)
Fixpoint loop (htmlCompiler : option Template) (idx : nat) (rs : list Recipient)
    (ok : list OkEntry) (fail : list FailEntry) : IO (list OkEntry * list FailEntry) :=
  match rs with
  | [] => mret (ok, fail)
  | recipient :: rest =>
      _ ← (if (0 <? idx)%nat && (0 <? delaySeconds_of body)%Z
           then sleep (delaySeconds_of body * 1000)
           else mret tt);
      res ← try_send htmlCompiler recipient;
      match res with
      | Normal info =>
          loop htmlCompiler (S idx) rest
            (ok ++ [{| ok_recipient := email recipient;
                       ok_messageId := Some (messageId info);
                       ok_status := "sent" |}])
            fail
      | Throw err =>
          loop htmlCompiler (S idx) rest ok
            (fail ++ [{| fail_recipient := email recipient; fail_error := message err |}])
      end
  end.

(** The individual mode: the loop, then the 200 response. *)
Definition individual_dynamic (startTime : Z) (htmlCompiler : option Template)
    : IO Reply :=
  '(ok, fail) ← loop htmlCompiler 0 (recipients body) [] [];
  endTime ← Date_now;
  mret {| code := 200;
          payload := PDynamic (length ok) (Qmake (endTime - startTime) 1000) ok fail |}.

(** The BCC mode, with its own [try]. *)
Definition bcc_bulk : IO Reply :=
  p ← sendMail transporterInstance (bcc_mail from_ body);
  info ← await p;
  mret (match info with
        | Fulfilled value =>
            {| code := 200;
               payload :=
                 PBulk (messageId value)
                   ((λ r, {| ok_recipient := email r;
                             ok_messageId := None;
                             ok_status := "bcc_sent" |}) <$> recipients body)
                   [] |}
        | Rejected err =>
            {| code := 500; payload := PError "BCC_FAILED" (message err) |}
        end).
End Request.

(** [createSendHandler(transporterInstance, defaultFromEmail,
    defaultFromName)] of this version, applied to a request. *)
Definition createSendHandler (transporterInstance : option Transporter)
    (defaultFromEmail defaultFromName : option string) (body : Body) : IO Reply :=
  match transporterInstance with
  | None => mret CONFIG_ERROR
  | Some t =>
      let from_ := fromAddress body defaultFromEmail defaultFromName in
      htmlCompiler ← (if JS.truthy (html body)
                      then c ← compile (JS.interpolate (html body));
                           mret (match c with
                                 | Normal tpl => Normal (Some tpl)
                                 | Throw err => Throw err
                                 end)
                      else mret (Normal None));
      match htmlCompiler with
      | Throw _ => mret HTML_ERROR
      | Normal htmlCompiler =>
          startTime ← Date_now;
          if individual_of body || (0 <? delaySeconds_of body)%Z
             || bool_decide (is_Some htmlCompiler)
          then individual_dynamic t from_ body startTime htmlCompiler
          else bcc_bulk t from_ body
      end
  end.
End Handler.

(** The third argument of the [createSendHandler] call of each route. *)
Definition defaultFromName (env : gmap string string) (a : Account) : option string :=
  match a with
  | General => env !! "FROM_NAME"
  | Partnership => Some "Atlaz Partnership"
  | Marketing => Some "Atlaz Marketing"
  end.

(** The handler registered for each route of this version.  Its
    [createTransporter] returns [null] and the transporter as the one of
    version 1.1.0 does: attaching the plugin, now inside a [try], does
    not change what is returned. *)
Definition handler (C : Collaborators) (env : gmap string string) (a : Account)
    (body : Body) : IO Reply :=
  createSendHandler C (transporter_of env a) (defaultFromEmail env a)
    (defaultFromName env a) body.

Definition reply_ok (r : Reply) : list OkEntry :=
  match payload r with
  | PDynamic _ _ ok _ | PBulk _ ok _ => ok
  | PError _ _ => []
  end.

Definition reply_fail (r : Reply) : list FailEntry :=
  match payload r with
  | PDynamic _ _ _ fail | PBulk _ _ fail => fail
  | PError _ _ => []
  end.

(** The result of the compile step of the handler. *)
Definition compiled (C : Collaborators) (body : Body) : completion (option Template) :=
  if JS.truthy (html body)
  then match handlebars_compile C (JS.interpolate (html body)) with
       | Normal tpl => Normal (Some tpl)
       | Throw err => Throw err
       end
  else Normal None.

Definition compile_plan (body : Body) : list Event :=
  if JS.truthy (html body) then [ECompile (JS.interpolate (html body))] else [].

(** BCC is taken only without the flag, without a delay and without raw
    HTML. *)
Definition takes_bcc (body : Body) : bool :=
  negb (individual_of body) && negb (0 <? delaySeconds_of body)%Z
  && negb (JS.truthy (html body)).

(** The message of the loop for a recipient, unless its render throws. *)
Definition mail_for (from_ : string) (body : Body) (htmlCompiler : option Template)
    (r : Recipient) : completion Mail :=
  if JS.truthy (template body) then Normal (template_mail from_ body r)
  else match htmlCompiler with
       | Some tpl =>
           match tpl (combinedContext body r) with
           | Normal rendered => Normal (html_mail from_ body r rendered)
           | Throw err => Throw err
           end
       | None => Normal (text_mail from_ body r)
       end.

(** The calls of the [try] of one iteration. *)
Definition try_plan (from_ : string) (body : Body) (htmlCompiler : option Template)
    (r : Recipient) : list Event :=
  (if JS.truthy (template body) then []
   else match htmlCompiler with
        | Some _ => [ERender (combinedContext body r)]
        | None => []
        end)
  ++ match mail_for from_ body htmlCompiler r with
     | Normal mail => [ESendMail mail; EAwait]
     | Throw _ => []
     end.

(** The calls of the whole loop. *)
Definition loop_plan (from_ : string) (body : Body) (htmlCompiler : option Template)
    (rs : list Recipient) : list Event :=
  concat (imap (λ idx r,
                  (if (0 <? idx)%nat && (0 <? delaySeconds_of body)%Z
                   then [ESleep (delaySeconds_of body * 1000)]
                   else [])
                  ++ try_plan from_ body htmlCompiler r)
               rs).

(** Sample data with a column of its own. *)
Definition sari : Recipient :=
  {| email := "sari@school.id"; name := Some "Bu Sari";
     extra := {["city" := JStr "Bandung"]} |}.

Definition dimas : Recipient :=
  {| email := "dimas@school.id"; name := None; extra := ∅ |}.

Definition sent : SentInfo :=
  {| messageId := "<2@mail.example>"; accepted := []; rejected := [] |}.

(** A toy engine: the template ["{{city}}"] renders to the [city] of its
    data, any other source to itself; sends are accepted after 20 ms. *)
Definition provider : Collaborators :=
  {| transport_send := λ _ _ _, (Fulfilled sent, 20%nat);
     handlebars_compile := λ source,
       Normal (λ data,
                 if String.eqb source "{{city}}"
                 then match data !! "city" with
                      | Some (JStr s) => Normal s
                      | _ => Normal EmptyString
                      end
                 else Normal source);
     timer_wait := λ ms, ms |}.

(** A recipient with a column [vip]. *)
Definition rina : Recipient :=
  {| email := "rina@school.id"; name := Some "Rina";
     extra := {["vip" := JBool true]} |}.

(** What a block [{{#if value}}] takes for true: every value but
    [undefined], [null], [false], [0] and the empty string. *)
Definition if_taken (value : option json) : bool :=
  match value with
  | Some (JBool b) => b
  | Some (JNum n) => negb (n =? 0)%Z
  | Some (JStr (String _ _)) => true
  | Some (JStr EmptyString) | Some JNull | None => false
  end.

(** The error of a call of the helper [discount], which nobody
    registered. *)
Definition missing_helper : JsError :=
  {| message := "Missing helper: " +:+ JS.dquote +:+ "discount" +:+ JS.dquote;
     to_String := "Error: Missing helper: " +:+ JS.dquote +:+ "discount" +:+ JS.dquote |}.

(** A toy engine for the one source [{{#if vip}}{{discount code}}{{/if}}]:
    the block calls a helper nobody registered, which throws when the
    block is rendered, that is for data whose [vip] is taken for true;
    for other data the template renders to the empty string. *)
Definition conditional : Collaborators :=
  {| transport_send := λ _ _ _, (Fulfilled sent, 20%nat);
     handlebars_compile := λ source,
       Normal (λ data,
                 if if_taken (data !! "vip") then Throw missing_helper
                 else Normal EmptyString);
     timer_wait := λ ms, ms |}.

Definition gmail : Transporter :=
  {| auth_user := "no-reply@example.com"; auth_pass := "app-password" |}.

Definition start : World := {| clock := 0; events := [] |}.

Definition blast (template html : option string) (individual : option bool)
    (delaySeconds : option Z) : Body :=
  {| recipients := [sari; dimas];
     subject := "Promo";
     html := html;
     template := template;
     context := Some {["city" := JStr "Jakarta"]};
     delaySeconds := delaySeconds;
     from := None;
     individual := individual |}.

(** A raw HTML request with that source, to a recipient with the column
    and one without. *)
Definition offer : Body :=
  {| recipients := [rina; dimas];
     subject := "Promo";
     html := Some "{{#if vip}}{{discount code}}{{/if}}";
     template := None;
     context := None;
     delaySeconds := None;
     from := None;
     individual := None |}.
End V2.

(** * Properties *)

(** ** Reading a log *)

Lemma sent_mails_app (h1 h2 : list Event) :
  sent_mails (h1 ++ h2) = sent_mails h1 ++ sent_mails h2.
Proof. apply omap_app. Qed.


Lemma sent_mails_sends (ms : list Message) : sent_mails (ESendMail <$> ms) = ms.
Proof. induction ms as [|m ms IH]; [done|]. unfold sent_mails in *. cbn. by f_equal. Qed.

(** Unfolds the monad and the primitives of the handler. *)
Ltac io_unfold :=
  unfold mbind, mret, IO_bind, IO_ret, render, sendMail, await, sleep,
    hbs_compile, Date_now, allSettled, log, tick in *; cbn in *.

(** ** One iteration of the delayed loop *)

Section TrySend.
Variable C : Collaborators.
Variable t : Transporter.
Variable from_ : string.
Variable body : Body.
Variable htmlTemplate : option Template.

Lemma try_send_events r w :
  events (try_send C t from_ body htmlTemplate r w).2
  = events w ++ try_plan from_ body htmlTemplate r.
Proof.
  unfold try_send, try_plan.
  destruct htmlTemplate as [tpl|]; io_unfold.
  - destruct (tpl (fields r)); cbn; by rewrite <- ?app_assoc.
  - by rewrite <- app_assoc.
Qed.


Lemma plan_cons (P : nat → Recipient → list Event) index r rs :
  concat (imap (λ i, P (index + i)%nat) (r :: rs))
  = P index r ++ concat (imap (λ i, P (S index + i)%nat) rs).
Proof.
  cbn [imap concat]. rewrite Nat.add_0_r. do 2 f_equal.
  apply imap_ext. intros. cbn. f_equal. lia.
Qed.

(** The loop started at position [index]. *)
Lemma delayed_loop_events rs : ∀ index ok fail w,
  events (delayed_loop C t from_ body htmlTemplate index rs ok fail w).2
  = events w ++ concat (imap (λ i, iteration_plan from_ body htmlTemplate (index + i)) rs).
Proof.
  induction rs as [|r rs IH]; intros index ok fail w.
  - cbn. by rewrite app_nil_r.
  - rewrite plan_cons. unfold iteration_plan at 1.
    cbn [delayed_loop]. unfold mbind, IO_bind.
    destruct (0 <? index)%nat eqn:Hi.
    + cbn [sleep].
      destruct (try_send C t from_ body htmlTemplate r _) as [res w1] eqn:Htry.
      pose proof (try_send_events r (tick (timer_wait C (delaySeconds_of body * 1000))
                    (log (ESleep (delaySeconds_of body * 1000)) w))) as He.
      rewrite Htry in He. cbn in He.
      destruct res; rewrite IH, He; by rewrite <- !app_assoc.
    + unfold mret at 1, IO_ret at 1.
      destruct (try_send C t from_ body htmlTemplate r w) as [res w1] eqn:Htry.
      pose proof (try_send_events r w) as He.
      rewrite Htry in He. cbn in He.
      destruct res; rewrite IH, He; by rewrite <- !app_assoc.
Qed.


(** Every recipient ends in [ok] or in [fail], in the order of the list. *)
Lemma delayed_loop_result rs : ∀ index ok fail w,
  ∃ flags : list bool,
    length flags = length rs
    ∧ ok_recipient <$> (delayed_loop C t from_ body htmlTemplate index rs ok fail w).1.1
      = (ok_recipient <$> ok) ++ (email <$> pick true rs flags)
    ∧ fail_recipient <$> (delayed_loop C t from_ body htmlTemplate index rs ok fail w).1.2
      = (fail_recipient <$> fail) ++ (email <$> pick false rs flags).
Proof.
  induction rs as [|r rs IH]; intros index ok fail w.
  - exists []. cbn. by rewrite !app_nil_r.
  - cbn [delayed_loop]. unfold mbind, IO_bind.
    destruct ((if (0 <? index)%nat then sleep C (delaySeconds_of body * 1000) else mret ()) w)
      as [[] w0].
    destruct (try_send C t from_ body htmlTemplate r w0) as [[value|err] w1].
    + destruct (IH (S index) (ok ++ [ok_entry r value]) fail w1) as (flags & Hl & Hok & Hfail).
      exists (true :: flags). cbn [length]. split; [by rewrite Hl|].
      rewrite Hok, Hfail, fmap_app, <- app_assoc. done.
    + destruct (IH (S index) ok
        (fail ++ [{| fail_recipient := email r; fail_error := message err |}]) w1)
        as (flags & Hl & Hok & Hfail).
      exists (false :: flags). cbn [length]. split; [by rewrite Hl|].
      rewrite Hok, Hfail, fmap_app, <- app_assoc. done.
Qed.
End TrySend.

(** ** [Promise.allSettled]: the values do not depend on who settles first *)

Lemma settle_insert_Permutation ps i order : settle_insert ps i order ≡ₚ i :: order.
Proof.
  induction order as [|j order IH]; [done|].
  cbn. destruct (latency ps i <=? latency ps j)%nat; [done|].
  rewrite IH. apply perm_swap.
Qed.

Lemma settle_order_Permutation ps : settle_order ps ≡ₚ seq 0 (length ps).
Proof.
  unfold settle_order. induction (seq 0 (length ps)) as [|i l IH]; [done|].
  cbn. by rewrite settle_insert_Permutation, IH.
Qed.

Lemma settle_length ps values i : length (settle ps values i) = length values.
Proof. apply length_insert. Qed.

Lemma foldl_settle_length ps order : ∀ values,
  length (foldl (settle ps) values order) = length values.
Proof.
  induction order as [|i order IH]; intros values; [done|].
  cbn. by rewrite IH, settle_length.
Qed.

(** A slot that is never written keeps its value; a slot that is written
    holds the outcome of the promise with that index, whenever it was
    written. *)
Lemma foldl_settle_lookup ps order : ∀ values j,
  (j < length values)%nat →
  foldl (settle ps) values order !! j
  = if bool_decide (j ∈ order) then Some (fst <$> ps !! j) else values !! j.
Proof.
  induction order as [|i order IH]; intros values j Hj.
  - cbn. by rewrite bool_decide_eq_false_2 by apply not_elem_of_nil.
  - cbn [foldl]. rewrite IH by by rewrite settle_length.
    destruct (decide (j ∈ order)) as [Hin|Hnin].
    + rewrite !bool_decide_eq_true_2; [done| by right |done].
    + rewrite (bool_decide_eq_false_2 _ Hnin).
      destruct (decide (j = i)) as [->|Hne].
      * rewrite bool_decide_eq_true_2 by left.
        unfold settle. by rewrite list_lookup_insert_eq.
      * rewrite bool_decide_eq_false_2.
        -- unfold settle. by rewrite list_lookup_insert_ne.
        -- intros Hin. apply elem_of_cons in Hin as [?|?]; done.
Qed.

Lemma settled_values_all ps : settled_values ps = (λ p : Promise, Some p.1) <$> ps.
Proof.
  apply list_eq. intros j. unfold settled_values.
  destruct (decide (j < length ps)%nat) as [Hj|Hj].
  - rewrite foldl_settle_lookup by by rewrite length_replicate.
    rewrite bool_decide_eq_true_2.
    + rewrite list_lookup_fmap.
      destruct (lookup_lt_is_Some_2 ps j Hj) as [p Hp].
      change Promise with (Settled * nat)%type in *. by rewrite !Hp.
    + rewrite settle_order_Permutation. apply elem_of_seq. lia.
  - rewrite !lookup_ge_None_2; [done| |].
    + rewrite length_fmap. lia.
    + rewrite foldl_settle_length, length_replicate. lia.
Qed.

(** ** Mode B *)

Section Parallel.
Variable C : Collaborators.
Variable t : Transporter.

Lemma issued_length h mails : length (issued C t h mails) = length mails.
Proof. revert h. induction mails as [|m mails IH]; intros h; [done|]. cbn. by rewrite IH. Qed.

(** [recipients.map((r) => transporterInstance.sendMail(...))] starts
    one send per recipient, in the order of the list. *)
Lemma mapM_sendMail (f : Recipient → Message) rs : ∀ w,
  mapM (λ r, sendMail C t (f r)) rs w
  = (issued C t (events w) (f <$> rs),
     {| clock := clock w; events := events w ++ (ESendMail <$> (f <$> rs)) |}).
Proof.
  induction rs as [|r rs IH]; intros w.
  - cbn. rewrite app_nil_r. by destruct w.
  - cbn [mapM]. unfold mbind at 1, IO_bind at 1. unfold sendMail at 1.
    unfold mbind at 1, IO_bind at 1. rewrite IH. cbn. by rewrite <- app_assoc.
Qed.

(** [forEach] over values without a hole and with a recipient at every
    index does not throw and files every recipient once. *)
Lemma forEach_result_full (recipients : list Recipient) outcomes : ∀ idx ok fail,
  (idx + length outcomes ≤ length recipients)%nat →
  ∃ ok' fail',
    forEach_result recipients idx (Some <$> outcomes) ok fail = Normal (ok', fail')
    ∧ ok_recipient <$> ok'
      = (ok_recipient <$> ok)
        ++ (email <$> pick true (drop idx recipients) (fulfilled <$> outcomes))
    ∧ fail_recipient <$> fail'
      = (fail_recipient <$> fail)
        ++ (email <$> pick false (drop idx recipients) (fulfilled <$> outcomes)).
Proof.
  induction outcomes as [|o outcomes IH]; intros idx ok fail Hlen.
  - exists ok, fail. cbn. unfold pick. rewrite zip_with_nil_r. cbn.
    by rewrite !app_nil_r.
  - cbn in Hlen. cbn [fmap list_fmap forEach_result].
    destruct (lookup_lt_is_Some_2 recipients idx) as [target Ht]; [lia|].
    rewrite Ht. rewrite (drop_S _ _ _ Ht).
    destruct o as [value|reason].
    + destruct (IH (S idx) (ok ++ [ok_entry target value]) fail)
        as (ok' & fail' & -> & Hok & Hfail); [lia|].
      exists ok', fail'. split; [done|]. rewrite Hok, Hfail, fmap_app, <- app_assoc. done.
    + destruct (IH (S idx) ok
        (fail ++ [{| fail_recipient := email target; fail_error := reason_text reason |}]))
        as (ok' & fail' & -> & Hok & Hfail); [lia|].
      exists ok', fail'. split; [done|]. rewrite Hok, Hfail, fmap_app, <- app_assoc. done.
Qed.
End Parallel.

(** [pick true] and [pick false] split the list. *)
Lemma pick_Permutation rs : ∀ flags,
  length flags = length rs → pick true rs flags ++ pick false rs flags ≡ₚ rs.
Proof.
  induction rs as [|r rs IH]; intros [|f flags] Hl; try done.
  cbn in Hl. specialize (IH flags ltac:(lia)).
  unfold pick in *. destruct f; cbn.
  - by rewrite IH.
  - rewrite <- Permutation_middle. by rewrite IH.
Qed.

(** ** The three modes, run from any world *)

Section Modes.
Variable C : Collaborators.
Variable t : Transporter.
Variable from_ : string.
Variable body : Body.

Lemma bcc_mode_run w :
  bcc_mode C t from_ body w
  = (match (transport_send C t (events w) (bcc_mail from_ body)).1 with
     | Fulfilled value =>
         {| code := 200;
            payload := PBcc (messageId value) (accepted value) (rejected value) |}
     | Rejected err => EMAIL_SEND_FAILED err
     end,
     {| clock := clock w + Z.of_nat (transport_send C t (events w) (bcc_mail from_ body)).2;
        events := events w ++ [ESendMail (bcc_mail from_ body); EAwait 1] |}).
Proof.
  unfold bcc_mode, mbind, IO_bind, sendMail, await, mret, IO_ret, log, tick. cbn.
  by rewrite <- app_assoc.
Qed.

Lemma parallel_eq w :
  let ps := issued C t (events w) (parallel_mail from_ body <$> recipients body) in
  parallel C t from_ body w
  = (match forEach_result (recipients body) 0 ((λ p : Promise, Some p.1) <$> ps) [] [] with
     | Normal (ok, fail) => {| code := 207; payload := PIndividual ok fail |}
     | Throw err => EMAIL_SEND_FAILED err
     end,
     {| clock := clock w + Z.of_nat (foldr Nat.max 0%nat (snd <$> ps));
        events := events w
                  ++ (ESendMail <$> (parallel_mail from_ body <$> recipients body))
                  ++ [EAwait (length (recipients body))] |}).
Proof.
  intros ps. unfold parallel.
  unfold mbind at 1, IO_bind at 1. rewrite mapM_sendMail. fold ps.
  unfold mbind, IO_bind, allSettled, mret, IO_ret, log, tick. cbn.
  rewrite settled_values_all, <- app_assoc.
  unfold ps. by rewrite issued_length, length_fmap.
Qed.

Lemma parallel_run w :
  let ps := issued C t (events w) (parallel_mail from_ body <$> recipients body) in
  let flags := (λ p : Promise, fulfilled p.1) <$> ps in
  ∃ ok fail,
    (parallel C t from_ body w).1 = {| code := 207; payload := PIndividual ok fail |}
    ∧ ok_recipient <$> ok = email <$> pick true (recipients body) flags
    ∧ fail_recipient <$> fail = email <$> pick false (recipients body) flags
    ∧ events (parallel C t from_ body w).2
      = events w ++ (ESendMail <$> (parallel_mail from_ body <$> recipients body))
        ++ [EAwait (length (recipients body))].
Proof.
  intros ps flags. rewrite parallel_eq. fold ps.
  destruct (forEach_result_full (recipients body) (fst <$> ps) 0 [] [])
    as (ok & fail & Hrun & Hok & Hfail).
  { rewrite length_fmap. unfold ps. rewrite issued_length, length_fmap. lia. }
  rewrite <- list_fmap_compose in Hrun.
  exists ok, fail. cbn [fst snd events].
  change ((λ p : Promise, Some p.1) <$> ps) with ((Some ∘ fst) <$> ps).
  rewrite Hrun. rewrite drop_0, <- list_fmap_compose in Hok, Hfail.
  done.
Qed.

Lemma delayed_sequence_run startTime htmlTemplate w :
  ∃ (ok : list OkEntry) (fail : list FailEntry) (flags : list bool),
    length flags = length (recipients body)
    ∧ (delayed_sequence C t from_ body startTime htmlTemplate w).1
      = {| code := 207;
           payload := PDelayed (length ok)
             (Qmake (clock (delayed_sequence C t from_ body startTime htmlTemplate w).2
                     - startTime) 1000) ok fail |}
    ∧ ok_recipient <$> ok = email <$> pick true (recipients body) flags
    ∧ fail_recipient <$> fail = email <$> pick false (recipients body) flags
    ∧ events (delayed_sequence C t from_ body startTime htmlTemplate w).2
      = events w ++ loop_plan from_ body htmlTemplate (recipients body).
Proof.
  unfold delayed_sequence. unfold mbind, IO_bind, Date_now, mret, IO_ret.
  destruct (delayed_loop_result C t from_ body htmlTemplate (recipients body) 0 [] [] w)
    as (flags & Hl & Hok & Hfail).
  pose proof (delayed_loop_events C t from_ body htmlTemplate (recipients body) 0 [] [] w)
    as Hev.
  destruct (delayed_loop C t from_ body htmlTemplate 0 (recipients body) [] [] w)
    as [[ok fail] w1].
  exists ok, fail, flags. cbn in *. done.
Qed.

End Modes.

(** ** The handler and its modes *)

Lemma calls_spec {A : Type} (m : IO A) (w : World) (plan : list Event) :
  events (m w).2 = events w ++ plan → calls m w = plan.
Proof. intros H. unfold calls. rewrite H. apply drop_app_length. Qed.

Lemma sent_mails_compile_plan body : sent_mails (compile_plan body) = [].
Proof. unfold compile_plan. by destruct (JS.truthy (html body)). Qed.


Lemma sent_mails_try_plan from_ body htmlTemplate r :
  sent_mails (try_plan from_ body htmlTemplate r)
  = option_list (attempted_mail from_ body htmlTemplate r).
Proof.
  unfold try_plan, attempted_mail. destruct htmlTemplate as [tpl|]; [|done].
  by destruct (tpl (fields r)).
Qed.


(** The sends of the loop are those of its iterations, in the order of
    the list. *)
Lemma sent_mails_loop_plan from_ body htmlTemplate rs :
  sent_mails (loop_plan from_ body htmlTemplate rs)
  = omap (attempted_mail from_ body htmlTemplate) rs.
Proof.
  unfold loop_plan.
  enough (∀ index,
    sent_mails (concat (imap (λ i, iteration_plan from_ body htmlTemplate (index + i)) rs))
    = omap (attempted_mail from_ body htmlTemplate) rs) as H by apply (H 0%nat).
  induction rs as [|r rs IH]; intros index; [done|].
  rewrite plan_cons, sent_mails_app, IH. unfold iteration_plan.
  rewrite sent_mails_app, sent_mails_try_plan. cbn [omap list_omap].
  destruct (0 <? index)%nat; by destruct (attempted_mail from_ body htmlTemplate r).
Qed.


Section HandlerFacts.
Variable C : Collaborators.

(** The nested conditionals of the handler against the three-way
    selection. *)
Lemma dispatch_run_mode t from_ body w :
  dispatch C t from_ body w
  = run_mode C t from_ body (selectMode (individual_of body) (delaySeconds_of body)) w.
Proof.
  assert (∀ mode : Z → option Template → IO Reply,
    (startTime ← Date_now;
     htmlTemplate ← (if JS.truthy (html body)
                     then c ← hbs_compile C (JS.interpolate (html body));
                          mret (match c with
                                | Normal tpl => Normal (Some tpl)
                                | Throw err => Throw err
                                end)
                     else mret (Normal None));
     match htmlTemplate with
     | Throw err => mret (EMAIL_SEND_FAILED err)
     | Normal htmlTemplate => mode startTime htmlTemplate
     end) w = individual_block C body mode w) as Hblock.
  { intros mode. unfold individual_block, compiled, compile_plan.
    unfold mbind, IO_bind, Date_now, hbs_compile, mret, IO_ret, log.
    destruct (JS.truthy (html body)).
    - by destruct (engine_compile C (JS.interpolate (html body))).
    - rewrite app_nil_r. by destruct w. }
  unfold dispatch, run_mode, selectMode.
  destruct (0 <? delaySeconds_of body)%Z eqn:Hd.
  - rewrite orb_true_r. apply (Hblock (delayed_sequence C t from_ body)).
  - rewrite orb_false_r. destruct (individual_of body); [|done].
    apply (Hblock (λ _ _, parallel C t from_ body)).
Qed.

Lemma createSendHandler_unconfigured fromEmail fromName body w :
  createSendHandler C None fromEmail fromName body w = (CONFIGURATION_ERROR, w).
Proof. done. Qed.

Lemma createSendHandler_no_content t fromEmail fromName body w :
  has_content body = false →
  createSendHandler C (Some t) fromEmail fromName body w = (BAD_REQUEST, w).
Proof.
  unfold has_content, createSendHandler. intros H.
  apply orb_false_iff in H as [-> ->]. done.
Qed.

Lemma createSendHandler_run t fromEmail fromName body w :
  has_content body = true →
  createSendHandler C (Some t) fromEmail fromName body w
  = run_mode C t (sender (displayName (from body) fromName) fromEmail) body
      (selectMode (individual_of body) (delaySeconds_of body)) w.
Proof.
  unfold has_content, createSendHandler. intros H.
  rewrite <- negb_orb, H. cbn [negb]. apply dispatch_run_mode.
Qed.

(** The calls of a mode do not depend on what the transport answers. *)
Lemma run_mode_events t from_ body m w :
  events (run_mode C t from_ body m w).2 = events w ++ mode_plan C from_ body m.
Proof.
  destruct m; cbn [run_mode mode_plan]; [by rewrite bcc_mode_run|..];
    unfold individual_block; destruct (compiled C body) as [htmlTemplate|err];
    cbn [snd events]; rewrite ?app_nil_r; try done.
  - destruct (parallel_run C t from_ body
                {| clock := clock w; events := events w ++ compile_plan body |})
      as (ok & fail & _ & _ & _ & ->).
    cbn [events]. by rewrite <- app_assoc.
  - destruct (delayed_sequence_run C t from_ body (clock w) htmlTemplate
                {| clock := clock w; events := events w ++ compile_plan body |})
      as (ok & fail & flags & _ & _ & _ & _ & ->).
    cbn [events]. by rewrite <- app_assoc.
Qed.
End HandlerFacts.

Section Outbox.
Variable C : Collaborators.

Lemma sent_mails_mode_plan from_ body m :
  sent_mails (mode_plan C from_ body m) = outbox C from_ body m.
Proof.
  destruct m; cbn [mode_plan outbox]; [done|..];
    rewrite sent_mails_app, sent_mails_compile_plan; cbn [app];
    destruct (compiled C body); try done.
  - rewrite sent_mails_app, sent_mails_sends. apply app_nil_r.
  - apply sent_mails_loop_plan.
Qed.

(** What the handler hands to the transport. *)
Lemma createSendHandler_outbox ti fromEmail fromName body w :
  sent_mails (calls (createSendHandler C ti fromEmail fromName body) w)
  = match ti with
    | Some _ =>
        if has_content body
        then outbox C (sender (displayName (from body) fromName) fromEmail) body
               (selectMode (individual_of body) (delaySeconds_of body))
        else []
    | None => []
    end.
Proof.
  destruct ti as [t|].
  - destruct (has_content body) eqn:Hc.
    + erewrite calls_spec; [apply sent_mails_mode_plan|].
      rewrite createSendHandler_run by done. apply run_mode_events.
    + erewrite calls_spec; [|rewrite createSendHandler_no_content by done;
                              by rewrite app_nil_r].
      done.
  - erewrite calls_spec; [|rewrite createSendHandler_unconfigured; by rewrite app_nil_r].
    done.
Qed.

Lemma outbox_senders from_ body m :
  Forall (λ mail, msg_from mail = from_) (outbox C from_ body m).
Proof.
  destruct m; cbn [outbox].
  - by repeat constructor.
  - destruct (compiled C body); [|constructor].
    apply Forall_fmap, Forall_true. done.
  - destruct (compiled C body) as [htmlTemplate|]; [|constructor].
    apply Forall_forall. intros mail Hin.
    apply list_elem_of_omap in Hin as (r & _ & Hm).
    unfold attempted_mail in Hm.
    destruct htmlTemplate as [tpl|]; [destruct (tpl (fields r))|]; by simplify_eq.
Qed.

Lemma outbox_individual_no_bcc from_ body m :
  m ≠ bcc →
  Forall (λ mail, msg_bcc mail = None ∧ is_Some (msg_to mail)) (outbox C from_ body m).
Proof.
  intros Hm. destruct m; [done|..]; cbn [outbox].
  - destruct (compiled C body); [|constructor].
    apply Forall_fmap, Forall_true. intros r. cbn. eauto.
  - destruct (compiled C body) as [htmlTemplate|]; [|constructor].
    apply Forall_forall. intros mail Hin.
    apply list_elem_of_omap in Hin as (r & _ & Hmail).
    unfold attempted_mail in Hmail.
    destruct htmlTemplate as [tpl|]; [destruct (tpl (fields r))|];
      simplify_eq; cbn; eauto.
Qed.

Lemma outbox_without_from from1 from2 body m :
  without_from <$> outbox C from1 body m = without_from <$> outbox C from2 body m.
Proof.
  destruct m; cbn [outbox]; [done|..].
  - destruct (compiled C body); [|done].
    rewrite <- !list_fmap_compose. by apply list_fmap_ext.
  - destruct (compiled C body) as [htmlTemplate|]; [|done].
    induction (recipients body) as [|r rs IH]; [done|].
    cbn [omap list_omap].
    assert (without_from <$> attempted_mail from1 body htmlTemplate r
            = without_from <$> attempted_mail from2 body htmlTemplate r) as Hr.
    { unfold attempted_mail.
      destruct htmlTemplate as [tpl|]; [destruct (tpl (fields r))|]; done. }
    destruct (attempted_mail from1 body htmlTemplate r),
             (attempted_mail from2 body htmlTemplate r);
      cbn in Hr; try discriminate; cbn; rewrite ?IH; congruence.
Qed.

Lemma run_mode_label t from_ body m w label :
  mode_of (payload (run_mode C t from_ body m w).1) = Some label → label = mode_name m.
Proof.
  destruct m; cbn [run_mode].
  - rewrite bcc_mode_run. cbn [fst].
    destruct (transport_send C t (events w) (bcc_mail from_ body)).1; cbn; congruence.
  - unfold individual_block. destruct (compiled C body); [|done].
    destruct (parallel_run C t from_ body
                {| clock := clock w; events := events w ++ compile_plan body |})
      as (ok & fail & -> & _). cbn. congruence.
  - unfold individual_block. destruct (compiled C body) as [htmlTemplate|]; [|done].
    destruct (delayed_sequence_run C t from_ body (clock w) htmlTemplate
                {| clock := clock w; events := events w ++ compile_plan body |})
      as (ok & fail & flags & _ & -> & _). cbn. congruence.
Qed.
End Outbox.

(** ** Delivery mode selection *)

Lemma selectMode_delayed individualFlag delaySeconds :
  (0 < delaySeconds)%Z → selectMode individualFlag delaySeconds = individual_delayed.
Proof. intros H. unfold selectMode. by rewrite (proj2 (Z.ltb_lt _ _) H). Qed.

Lemma selectMode_immediate individualFlag delaySeconds :
  (delaySeconds ≤ 0)%Z →
  selectMode individualFlag delaySeconds = if individualFlag then individual_mode else bcc.
Proof. intros H. unfold selectMode. by rewrite (proj2 (Z.ltb_ge _ _) H). Qed.

(** C1.  The handler selects its delivery mode by the total function
    [selectMode]: a positive [delaySeconds] gives [individual_delayed],
    otherwise the [individual] flag gives [individual], otherwise [bcc].
    A request that gets past the guards runs exactly the selected mode, a
    response that names a mode names the selected one, and with a positive
    [delaySeconds] no message handed to the transport has a blind-copy
    line. *)
Theorem mode_selection (C : Collaborators) (ti : option Transporter)
    (fromEmail fromName : option string) (body : Body) (w : World) :
  let mode := selectMode (individual_of body) (delaySeconds_of body) in
  let from_ := sender (displayName (from body) fromName) fromEmail in
  let run := createSendHandler C ti fromEmail fromName body in
  (∀ t, ti = Some t → has_content body = true → run w = run_mode C t from_ body mode w)
  ∧ (∀ label, mode_of (payload (run w).1) = Some label → label = mode_name mode)
  ∧ ((0 < delaySeconds_of body)%Z → mode = individual_delayed)
  ∧ ((delaySeconds_of body ≤ 0)%Z →
     mode = if individual_of body then individual_mode else bcc)
  ∧ ((0 < delaySeconds_of body)%Z →
     Forall (λ mail, msg_bcc mail = None) (sent_mails (calls run w)))
  ∧ (mode ≠ bcc →
     Forall (λ mail, msg_bcc mail = None ∧ is_Some (msg_to mail))
            (sent_mails (calls run w))).
Proof.
  intros mode from_ run. repeat split.
  - intros t -> Hc. by apply createSendHandler_run.
  - intros label. subst run. destruct ti as [t|]; [|done].
    destruct (has_content body) eqn:Hc.
    + rewrite createSendHandler_run by done. apply run_mode_label.
    + by rewrite createSendHandler_no_content.
  - apply selectMode_delayed.
  - apply selectMode_immediate.
  - intros Hd. subst run. rewrite createSendHandler_outbox.
    destruct ti as [t|]; [|constructor].
    destruct (has_content body); [|constructor].
    rewrite selectMode_delayed by done.
    eapply Forall_impl; [by apply outbox_individual_no_bcc|].
    by intros mail [? _].
  - intros Hm. subst run. rewrite createSendHandler_outbox.
    destruct ti as [t|]; [|constructor].
    destruct (has_content body); [|constructor].
    by apply outbox_individual_no_bcc.
Qed.

Lemma mode_selection_witness :
  let body := Sample.invite (Some false) (Some 3%Z) in
  let run := createSendHandler Sample.provider (Some Sample.gmail)
               (Some "no-reply@example.com") None body in
  (0 < delaySeconds_of body)%Z
  ∧ "individual_delayed" = mode_name (selectMode (individual_of body) (delaySeconds_of body))
  ∧ Forall (λ mail, msg_bcc mail = None) (sent_mails (calls run Sample.start)).
Proof.
  intros body run.
  destruct (mode_selection Sample.provider (Some Sample.gmail)
              (Some "no-reply@example.com") None body Sample.start)
    as (_ & Hlabel & _ & _ & Hbcc & _).
  split; [reflexivity|]. split.
  - apply Hlabel. vm_compute. reflexivity.
  - apply Hbcc. reflexivity.
Defined.

(** ** Individual mode *)

(** C2.  A valid raw HTML request in individual mode ([individual =
    true], [delaySeconds = 0]) to two recipients: the call
    [hbs.compile(html)] throws, the outer [catch] answers 500, and the
    handler has called nothing else.  No message is handed to the
    transport and no recipient is in [ok] or in [fail]. *)
Lemma individual_raw_html_nothing_sent :
  let body := Sample.report (Some true) None in
  let run := createSendHandler Sample.provider (Some Sample.gmail)
               (Some "no-reply@example.com") None body in
  SendEmailRequest Sample.provider body = true
  ∧ selectMode (individual_of body) (delaySeconds_of body) = individual_mode
  ∧ length (recipients body) = 2%nat
  ∧ calls run Sample.start = [ECompile "<p>Hi {{name}},</p>"]
  ∧ sent_mails (calls run Sample.start) = []
  ∧ (run Sample.start).1 = EMAIL_SEND_FAILED TypeError_compile
  ∧ reply_ok (run Sample.start).1 = []
  ∧ reply_fail (run Sample.start).1 = [].
Proof. vm_compute. repeat split. Qed.

(** X25.  Concurrent individual mode ([individual = true], [delaySeconds
    = 0]) when the compile step does not throw - in the program, when the
    request carries no raw HTML.  The handler hands exactly one message
    per recipient to the transport, in the order of the list and whatever
    the transport answers to the others: all sends are started before the
    one wait for all of them.  Once all promises have settled every
    recipient is in exactly one of [ok] and [fail]. *)
Theorem individual_fan_out (C : Collaborators) (t : Transporter)
    (fromEmail fromName : option string) (body : Body)
    (htmlTemplate : option Template) (w : World) :
  has_content body = true →
  individual_of body = true →
  delaySeconds_of body = 0%Z →
  compiled C body = Normal htmlTemplate →
  let from_ := sender (displayName (from body) fromName) fromEmail in
  let run := createSendHandler C (Some t) fromEmail fromName body in
  let promises := issued C t (events w ++ compile_plan body)
                    (parallel_mail from_ body <$> recipients body) in
  let flags := (λ p : Promise, fulfilled p.1) <$> promises in
  calls run w
  = compile_plan body
    ++ (ESendMail <$> (parallel_mail from_ body <$> recipients body))
    ++ [EAwait (length (recipients body))]
  ∧ sent_mails (calls run w) = parallel_mail from_ body <$> recipients body
  ∧ msg_to <$> sent_mails (calls run w) = (λ r, Some (fmt r)) <$> recipients body
  ∧ length (sent_mails (calls run w)) = length (recipients body)
  ∧ ∃ ok fail,
      (run w).1 = {| code := 207; payload := PIndividual ok fail |}
      ∧ ok_recipient <$> ok = email <$> pick true (recipients body) flags
      ∧ fail_recipient <$> fail = email <$> pick false (recipients body) flags
      ∧ (ok_recipient <$> ok) ++ (fail_recipient <$> fail) ≡ₚ email <$> recipients body.
Proof.
  intros Hc Hi Hd Htpl from_ run promises flags.
  split.
  { subst run. apply calls_spec. rewrite createSendHandler_run by done.
    rewrite run_mode_events, selectMode_immediate, Hi by lia. cbn [mode_plan].
    by rewrite Htpl. }
  assert (sent_mails (calls run w) = parallel_mail from_ body <$> recipients body) as Hsent.
  { subst run. rewrite createSendHandler_outbox, Hc.
    rewrite selectMode_immediate, Hi by lia. cbn [outbox]. by rewrite Htpl. }
  rewrite Hsent. split; [done|]. split.
  { rewrite <- list_fmap_compose. by apply list_fmap_ext. }
  split; [by rewrite length_fmap|].
  subst run. rewrite createSendHandler_run by done.
  rewrite selectMode_immediate, Hi by lia. cbn [run_mode].
  unfold individual_block. rewrite Htpl.
  destruct (parallel_run C t from_ body
              {| clock := clock w; events := events w ++ compile_plan body |})
    as (ok & fail & Hreply & Hok & Hfail & _).
  exists ok, fail. cbn [events] in Hok, Hfail. fold promises flags in Hok, Hfail.
  repeat split; try done.
  rewrite Hok, Hfail, <- fmap_app. apply fmap_Permutation, pick_Permutation.
  subst flags promises. by rewrite length_fmap, issued_length, length_fmap.
Qed.

Lemma individual_fan_out_witness :
  let body := Sample.invite (Some true) None in
  let run := createSendHandler Sample.provider (Some Sample.gmail)
               (Some "no-reply@example.com") None body in
  has_content body = true
  ∧ individual_of body = true
  ∧ delaySeconds_of body = 0%Z
  ∧ length (sent_mails (calls run Sample.start)) = 2%nat.
Proof.
  intros body run.
  destruct (individual_fan_out Sample.provider Sample.gmail (Some "no-reply@example.com")
              None body None Sample.start
              eq_refl eq_refl eq_refl eq_refl) as (_ & _ & _ & Hlen & _).
  split; [reflexivity|]. split; [reflexivity|]. split; [reflexivity|]. exact Hlen.
Defined.

(** ** BCC mode *)

Lemma fmt_bcc_entry r : fmt r = bcc_entry r.
Proof. unfold fmt, bcc_entry. by destruct (name r) as [[|c n]|]. Qed.

Example fmt_named :
  fmt Sample.alice = JS.dquote +:+ "Alice" +:+ JS.dquote +:+ " <alice@example.com>".
Proof. reflexivity. Qed.

Example fmt_unnamed : fmt Sample.bob = "bob@example.com".
Proof. reflexivity. Qed.

(** [r.name ? ... : r.email] takes an empty name for no name. *)
Example fmt_empty_name :
  fmt {| email := "carol@example.com"; name := Some EmptyString |} = "carol@example.com".
Proof. reflexivity. Qed.

(** C3.  In BCC mode ([individual = false], [delaySeconds = 0]) the
    handler makes exactly one call, a [sendMail] that it awaits, whose
    blind-copy line is the recipients' entries joined by comma and space,
    one entry per recipient in the order of the list: the quoted name and
    the address in angle brackets when the recipient has a (non-empty)
    name, the bare address otherwise. *)
Theorem bcc_single_message (C : Collaborators) (t : Transporter)
    (fromEmail fromName : option string) (body : Body) (w : World) :
  has_content body = true →
  individual_of body = false →
  delaySeconds_of body = 0%Z →
  let run := createSendHandler C (Some t) fromEmail fromName body in
  ∃ mail,
    calls run w = [ESendMail mail; EAwait 1]
    ∧ msg_to mail = None
    ∧ msg_bcc mail = Some (String.concat ", " (bcc_entry <$> recipients body))
    ∧ length (bcc_entry <$> recipients body) = length (recipients body).
Proof.
  intros Hc Hi Hd run.
  exists (bcc_mail (sender (displayName (from body) fromName) fromEmail) body).
  split.
  - subst run. apply calls_spec. rewrite createSendHandler_run by done.
    rewrite run_mode_events, selectMode_immediate, Hi by lia. done.
  - split; [done|]. split; [|by rewrite length_fmap].
    cbn. do 2 f_equal. apply list_fmap_ext. intros _ r _. apply fmt_bcc_entry.
Qed.

Lemma bcc_single_message_witness :
  let body := Sample.invite None None in
  let run := createSendHandler Sample.provider (Some Sample.gmail)
               (Some "no-reply@example.com") None body in
  has_content body = true
  ∧ individual_of body = false
  ∧ delaySeconds_of body = 0%Z
  ∧ ∃ mail,
      calls run Sample.start = [ESendMail mail; EAwait 1]
      ∧ msg_to mail = None
      ∧ msg_bcc mail
        = Some (JS.dquote +:+ "Alice" +:+ JS.dquote +:+ " <alice@example.com>, bob@example.com").
Proof.
  intros body run.
  destruct (bcc_single_message Sample.provider Sample.gmail (Some "no-reply@example.com")
              None body Sample.start eq_refl eq_refl eq_refl)
    as (mail & Hcalls & Hto & Hbcc & _).
  split; [reflexivity|]. split; [reflexivity|]. split; [reflexivity|].
  exists mail. split; [exact Hcalls|]. split; [exact Hto|]. exact Hbcc.
Defined.

(** ** Contexts of the individual modes *)

Lemma merged_context_recipient body r k v :
  fields r !! k = Some v → merged_context body r !! k = Some v.
Proof. intros H. unfold merged_context. by apply lookup_union_Some_l. Qed.

Lemma merged_context_global body r k :
  fields r !! k = None → merged_context body r !! k = context_of body !! k.
Proof. intros H. unfold merged_context. by apply lookup_union_r. Qed.

(** In the delayed loop raw HTML is rendered against the recipient's own
    fields; the global context is not part of the data. *)
Lemma delayed_html_rendered_against_recipient (C : Collaborators) t from_ body tpl r w :
  events (try_send C t from_ body (Some tpl) r w).2 !! length (events w)
  = Some (ERender (fields r)).
Proof.
  rewrite try_send_events. cbn [try_plan].
  rewrite lookup_app_r by lia. by rewrite Nat.sub_diag.
Qed.

(** The claim C4 fails in concurrent individual mode: the message for the
    first recipient of a template request carries the global context as it
    came, without the recipient's [email] and [name]. *)
Lemma individual_context_not_merged :
  let body := Sample.invite (Some true) None in
  let run := createSendHandler Sample.provider (Some Sample.gmail)
               (Some "no-reply@example.com") None body in
  ∃ mail,
    sent_mails (calls run Sample.start) !! 0%nat = Some mail
    ∧ msg_to mail = Some (fmt Sample.alice)
    ∧ msg_content mail = TemplateContent "teacher-invite" {["city" := JStr "Jakarta"]}
    ∧ msg_content mail
      ≠ TemplateContent "teacher-invite" (merged_context body Sample.alice).
Proof.
  intros body run.
  exists (parallel_mail (sender (displayName (from body) None) (Some "no-reply@example.com"))
            body Sample.alice).
  split; [vm_compute; reflexivity|]. split; [reflexivity|]. split; [reflexivity|].
  intros H.
  apply (f_equal (λ c, match c with
                       | TemplateContent _ ctx => ctx !! "email"
                       | HtmlContent _ => None
                       end)) in H.
  vm_compute in H. discriminate H.
Qed.

(** C4, amended.  In delayed mode with a named template the message of
    each recipient carries the global context overridden key by key by
    the recipient's own fields.  In concurrent individual mode nothing is
    merged: every message carries the global context as it came, or the
    raw HTML as it came. *)
Theorem individual_contexts (C : Collaborators) (t : Transporter)
    (fromEmail fromName : option string) (body : Body)
    (htmlTemplate : option Template) (w : World) :
  has_content body = true →
  compiled C body = Normal htmlTemplate →
  let from_ := sender (displayName (from body) fromName) fromEmail in
  let run := createSendHandler C (Some t) fromEmail fromName body in
  let renders r := match htmlTemplate with
                   | Some tpl => match tpl (fields r) with
                                 | Normal _ => true
                                 | Throw _ => false
                                 end
                   | None => true
                   end in
  ((0 < delaySeconds_of body)%Z →
   JS.truthy (template body) = true →
   sent_mails (calls run w)
   = omap (λ r, if renders r
                then Some {| msg_from := from_;
                             msg_to := Some (fmt r);
                             msg_bcc := None;
                             msg_subject := subject body;
                             msg_content :=
                               TemplateContent (JS.interpolate (template body))
                                 (merged_context body r) |}
                else None)
          (recipients body))
  ∧ (∀ r k v, fields r !! k = Some v → merged_context body r !! k = Some v)
  ∧ (∀ r k, fields r !! k = None → merged_context body r !! k = context_of body !! k)
  ∧ (individual_of body = true →
     delaySeconds_of body = 0%Z →
     sent_mails (calls run w)
     = (λ r, {| msg_from := from_;
                msg_to := Some (fmt r);
                msg_bcc := None;
                msg_subject := subject body;
                msg_content :=
                  if JS.truthy (template body)
                  then TemplateContent (JS.interpolate (template body)) (context_of body)
                  else HtmlContent (html body) |})
       <$> recipients body).
Proof.
  intros Hc Htpl from_ run renders. subst run.
  rewrite createSendHandler_outbox, Hc. fold from_.
  split; [|split; [|split]].
  - intros Hd Ht. rewrite selectMode_delayed by done. cbn [outbox]. rewrite Htpl.
    apply list_omap_ext, Forall2_same_length_lookup_2; [done|].
    intros i r r' Hr Hr'. simplify_eq.
    unfold attempted_mail, renders, delayed_mail. rewrite Ht.
    destruct htmlTemplate as [tpl|]; [by destruct (tpl (fields r))|done].
  - apply merged_context_recipient.
  - apply merged_context_global.
  - intros Hi Hd. rewrite selectMode_immediate, Hi by lia. cbn [outbox].
    by rewrite Htpl.
Qed.

Lemma individual_contexts_witness :
  let body := Sample.invite None (Some 3%Z) in
  let run := createSendHandler Sample.provider (Some Sample.gmail)
               (Some "no-reply@example.com") None body in
  has_content body = true
  ∧ (0 < delaySeconds_of body)%Z
  ∧ JS.truthy (template body) = true
  ∧ msg_content <$> sent_mails (calls run Sample.start)
    = [TemplateContent "teacher-invite" (merged_context body Sample.alice);
       TemplateContent "teacher-invite" (merged_context body Sample.bob)].
Proof.
  intros body run.
  destruct (individual_contexts Sample.provider Sample.gmail (Some "no-reply@example.com")
              None body None Sample.start eq_refl eq_refl) as (Hdelayed & _).
  split; [reflexivity|]. split; [reflexivity|]. split; [reflexivity|].
  unfold run. rewrite (Hdelayed eq_refl eq_refl). reflexivity.
Defined.

(** ** Delayed mode *)

(** C5.  The example request of the schema (raw HTML, [delaySeconds =
    3], two recipients): the call [hbs.compile(html)] throws before the
    loop is entered.  The handler never sleeps and sends nothing; the
    answer is 500, with no [durationSeconds], and no time has passed. *)
Lemma delayed_raw_html_nothing_sent :
  let body := Sample.promo in
  let run := createSendHandler Sample.provider (Some Sample.gmail)
               (Some "no-reply@example.com") None body in
  SendEmailRequest Sample.provider body = true
  ∧ delaySeconds_of body = 3%Z
  ∧ length (recipients body) = 2%nat
  ∧ calls run Sample.start = [ECompile "<p>Promo content</p>"]
  ∧ sleeps (calls run Sample.start) = []
  ∧ sent_mails (calls run Sample.start) = []
  ∧ (run Sample.start).1 = EMAIL_SEND_FAILED TypeError_compile
  ∧ clock (run Sample.start).2 = clock Sample.start.
Proof. vm_compute. repeat split. Qed.



(** ** Status codes *)

Lemma run_mode_code (C : Collaborators) t from_ body m w :
  code (run_mode C t from_ body m w).1
  = match m with
    | bcc =>
        match (transport_send C t (events w) (bcc_mail from_ body)).1 with
        | Fulfilled _ => 200
        | Rejected _ => 500
        end
    | _ =>
        match compiled C body with
        | Normal _ => 207
        | Throw _ => 500
        end
    end%Z.
Proof.
  destruct m; cbn [run_mode].
  - rewrite bcc_mode_run. cbn [fst].
    by destruct (transport_send C t (events w) (bcc_mail from_ body)).1.
  - unfold individual_block. destruct (compiled C body); [|done].
    destruct (parallel_run C t from_ body
                {| clock := clock w; events := events w ++ compile_plan body |})
      as (ok & fail & -> & _). done.
  - unfold individual_block. destruct (compiled C body) as [htmlTemplate|]; [|done].
    destruct (delayed_sequence_run C t from_ body (clock w) htmlTemplate
                {| clock := clock w; events := events w ++ compile_plan body |})
      as (ok & fail & flags & _ & -> & _). done.
Qed.

(** C6.  Valid raw HTML requests in the two individual modes: the call
    [hbs.compile(html)] throws and the status is 500, not 207. *)
Lemma raw_html_status_500 :
  let concurrent := Sample.report (Some true) None in
  let delayed := Sample.promo in
  let run body := createSendHandler Sample.provider (Some Sample.gmail)
                    (Some "no-reply@example.com") None body in
  SendEmailRequest Sample.provider concurrent = true
  ∧ SendEmailRequest Sample.provider delayed = true
  ∧ selectMode (individual_of concurrent) (delaySeconds_of concurrent) = individual_mode
  ∧ selectMode (individual_of delayed) (delaySeconds_of delayed) = individual_delayed
  ∧ code (run concurrent Sample.start).1 = 500%Z
  ∧ code (run delayed Sample.start).1 = 500%Z.
Proof. vm_compute. repeat split. Qed.

(** X27.  The status is 200 for a BCC send that the transport accepts and
    500 for one it rejects; it is 207 for the two individual modes,
    whatever the transport answers to each send, when the compile step
    does not throw (in the program, when the request carries no raw
    HTML); and a response that names its mode has status 200 for [bcc]
    and 207 otherwise. *)
Theorem status_by_mode (C : Collaborators) (t : Transporter)
    (fromEmail fromName : option string) (body : Body) (w : World) :
  has_content body = true →
  let mode := selectMode (individual_of body) (delaySeconds_of body) in
  let from_ := sender (displayName (from body) fromName) fromEmail in
  let run := createSendHandler C (Some t) fromEmail fromName body in
  (mode = bcc →
   code (run w).1
   = match (transport_send C t (events w) (bcc_mail from_ body)).1 with
     | Fulfilled _ => 200
     | Rejected _ => 500
     end%Z)
  ∧ (mode ≠ bcc →
     ∀ htmlTemplate, compiled C body = Normal htmlTemplate → code (run w).1 = 207%Z)
  ∧ (∀ label, mode_of (payload (run w).1) = Some label →
     code (run w).1 = if String.eqb label "bcc" then 200%Z else 207%Z).
Proof.
  intros Hc mode from_ run. subst run.
  rewrite createSendHandler_run by done. fold mode from_.
  repeat split.
  - intros Hm. by rewrite run_mode_code, Hm.
  - intros Hm htmlTemplate Htpl. rewrite run_mode_code, Htpl. by destruct mode.
  - intros label Hlabel.
    pose proof (run_mode_label C t from_ body mode w label Hlabel) as ->.
    rewrite run_mode_code. destruct mode eqn:Hm; cbn [mode_name String.eqb].
    + cbn [run_mode] in Hlabel. rewrite bcc_mode_run in Hlabel. cbn [fst] in Hlabel.
      by destruct (transport_send C t (events w) (bcc_mail from_ body)).1.
    + cbn [run_mode] in Hlabel. unfold individual_block in Hlabel.
      by destruct (compiled C body).
    + cbn [run_mode] in Hlabel. unfold individual_block in Hlabel.
      by destruct (compiled C body).
Qed.

Lemma status_by_mode_witness :
  let body := Sample.invite (Some true) None in
  let run := createSendHandler Sample.provider (Some Sample.gmail)
               (Some "no-reply@example.com") None body in
  has_content body = true
  ∧ selectMode (individual_of body) (delaySeconds_of body) ≠ bcc
  ∧ code (run Sample.start).1 = 207%Z.
Proof.
  intros body run.
  destruct (status_by_mode Sample.provider Sample.gmail (Some "no-reply@example.com")
              None body Sample.start eq_refl) as (_ & Hindividual & _).
  assert (selectMode (individual_of body) (delaySeconds_of body) ≠ bcc) as Hm.
  { intros H. discriminate H. }
  split; [reflexivity|]. split; [exact Hm|].
  exact (Hindividual Hm None eq_refl).
Defined.

(** ** Order of the result lists *)

(** The claim C7 fails in concurrent individual mode: the first send
    takes 50 ms and the second 10 ms, so the second promise settles
    first, and [ok] still lists the first recipient first. *)
Lemma concurrent_ok_not_in_completion_order :
  let body := Sample.invite (Some true) None in
  let from_ := sender (displayName (from body) None) (Some "no-reply@example.com") in
  let run := createSendHandler Sample.provider (Some Sample.gmail)
               (Some "no-reply@example.com") None body in
  let promises := issued Sample.provider Sample.gmail []
                    (parallel_mail from_ body <$> recipients body) in
  settle_order promises = [1; 0]%nat
  ∧ completion_order_ok (recipients body) promises
    = ["bob@example.com"; "alice@example.com"]
  ∧ ok_recipient <$> reply_ok (run Sample.start).1
    = ["alice@example.com"; "bob@example.com"]
  ∧ ok_recipient <$> reply_ok (run Sample.start).1
    ≠ completion_order_ok (recipients body) promises.
Proof.
  intros body from_ run promises.
  split; [vm_compute; reflexivity|]. split; [vm_compute; reflexivity|].
  split; [vm_compute; reflexivity|].
  vm_compute. intros H. discriminate H.
Qed.

(** Two providers that settle every send the same way, after whatever
    time, get the same response in concurrent mode. *)
Lemma issued_outcomes (C1 C2 : Collaborators) t mails : ∀ h,
  (∀ h' m, (transport_send C1 t h' m).1 = (transport_send C2 t h' m).1) →
  fst <$> issued C1 t h mails = fst <$> issued C2 t h mails.
Proof.
  induction mails as [|m mails IH]; intros h Hsame; [done|].
  cbn. by rewrite Hsame, IH.
Qed.

Lemma concurrent_reply_ignores_latencies (C1 C2 : Collaborators) t from_ body w :
  (∀ h m, (transport_send C1 t h m).1 = (transport_send C2 t h m).1) →
  (parallel C1 t from_ body w).1 = (parallel C2 t from_ body w).1.
Proof.
  intros Hsame. rewrite !parallel_eq. cbn [fst].
  change (λ p : Promise, Some p.1) with (Some ∘ (fst : Promise → Settled)).
  rewrite !list_fmap_compose.
  by rewrite (issued_outcomes C1 C2 t _ (events w) Hsame).
Qed.

(** C7, amended.  In both individual modes [ok] and [fail] follow the
    order of the recipients list: each is the recipients with one outcome,
    in list order.  In concurrent mode the outcome of a recipient is how
    the promise at its index settled; when it settled plays no part. *)
Theorem result_lists_in_input_order (C : Collaborators) (t : Transporter)
    (fromEmail fromName : option string) (body : Body)
    (htmlTemplate : option Template) (w : World) :
  has_content body = true →
  selectMode (individual_of body) (delaySeconds_of body) ≠ bcc →
  compiled C body = Normal htmlTemplate →
  let from_ := sender (displayName (from body) fromName) fromEmail in
  let run := createSendHandler C (Some t) fromEmail fromName body in
  ∃ flags : list bool,
    length flags = length (recipients body)
    ∧ ok_recipient <$> reply_ok (run w).1 = email <$> pick true (recipients body) flags
    ∧ fail_recipient <$> reply_fail (run w).1 = email <$> pick false (recipients body) flags
    ∧ (selectMode (individual_of body) (delaySeconds_of body) = individual_mode →
       flags = (λ p : Promise, fulfilled p.1)
               <$> issued C t (events w ++ compile_plan body)
                     (parallel_mail from_ body <$> recipients body)).
Proof.
  intros Hc Hm Htpl from_ run. subst run.
  rewrite createSendHandler_run by done. fold from_.
  destruct (selectMode (individual_of body) (delaySeconds_of body)); [done|..];
    cbn [run_mode]; unfold individual_block; rewrite Htpl.
  - destruct (parallel_run C t from_ body
                {| clock := clock w; events := events w ++ compile_plan body |})
      as (ok & fail & Hreply & Hok & Hfail & _).
    cbn [events] in Hok, Hfail.
    eexists. split; [|split; [|split; [|reflexivity]]].
    + by rewrite length_fmap, issued_length, length_fmap.
    + unfold reply_ok. by rewrite Hreply.
    + unfold reply_fail. by rewrite Hreply.
  - destruct (delayed_sequence_run C t from_ body (clock w) htmlTemplate
                {| clock := clock w; events := events w ++ compile_plan body |})
      as (ok & fail & flags & Hl & Hreply & Hok & Hfail & _).
    exists flags. split; [done|]. split; [|split; [|done]].
    + unfold reply_ok. by rewrite Hreply.
    + unfold reply_fail. by rewrite Hreply.
Qed.

Lemma result_lists_in_input_order_witness :
  let body := Sample.invite (Some true) None in
  let run := createSendHandler Sample.provider (Some Sample.gmail)
               (Some "no-reply@example.com") None body in
  has_content body = true
  ∧ selectMode (individual_of body) (delaySeconds_of body) ≠ bcc
  ∧ ∃ flags : list bool,
      length flags = 2%nat
      ∧ ok_recipient <$> reply_ok (run Sample.start).1
        = email <$> pick true (recipients body) flags.
Proof.
  intros body run.
  assert (selectMode (individual_of body) (delaySeconds_of body) ≠ bcc) as Hm.
  { intros H. discriminate H. }
  destruct (result_lists_in_input_order Sample.provider Sample.gmail
              (Some "no-reply@example.com") None body None Sample.start
              eq_refl Hm eq_refl) as (flags & Hl & Hok & _).
  split; [reflexivity|]. split; [exact Hm|].
  exists flags. split; [exact Hl | exact Hok].
Defined.

(** ** Accounts without credentials *)

Lemma createTransporter_missing label user pass :
  JS.truthy user && JS.truthy pass = false → createTransporter label user pass = None.
Proof.
  unfold createTransporter. intros H. by rewrite <- negb_andb, H.
Qed.

Lemma handler_createSendHandler (C : Collaborators) env a :
  ∃ fromName,
    handler C env a
    = createSendHandler C
        (createTransporter (match a with
                            | General => "MAIN"
                            | Partnership => "PARTNERSHIP"
                            | Marketing => "MARKETING"
                            end)
           (credentials env a).1 (credentials env a).2)
        (defaultFromEmail env a) fromName.
Proof. destruct a; eexists; reflexivity. Qed.

Lemma handler_unconfigured (C : Collaborators) env a body w :
  JS.truthy (credentials env a).1 && JS.truthy (credentials env a).2 = false →
  handler C env a body w = (CONFIGURATION_ERROR, w).
Proof.
  intros H. destruct (handler_createSendHandler C env a) as [fromName ->].
  by rewrite createTransporter_missing.
Qed.

(** C8.  When a credential of an account is absent from the environment,
    its handler answers every request with the configuration error, status
    500, and leaves the world as it was: no compile, no render, no sleep
    and no send.  The handler is a total function, so there is no request
    on which it fails to answer.  Through the route, a body that fits the
    schema gets that answer, and no body at all causes a call. *)
Theorem unconfigured_account (C : Collaborators) (env : gmap string string)
    (a : Account) (body : Body) (w : World) :
  (credentials env a).1 = None ∨ (credentials env a).2 = None →
  handler C env a body w = (CONFIGURATION_ERROR, w)
  ∧ code CONFIGURATION_ERROR = 500%Z
  ∧ payload CONFIGURATION_ERROR
    = PError "CONFIGURATION_ERROR"
        "This email channel is not configured on the server (missing ENV)."
  ∧ (SendEmailRequest C body = true → post C env a body w = (CONFIGURATION_ERROR, w))
  ∧ calls (post C env a body) w = [].
Proof.
  intros Habsent.
  assert (handler C env a body w = (CONFIGURATION_ERROR, w)) as Hh.
  { apply handler_unconfigured. destruct Habsent as [-> | ->]; [done|].
    apply andb_false_r. }
  split; [exact Hh|]. split; [done|]. split; [done|]. unfold post. split.
  - intros ->. exact Hh.
  - apply calls_spec. destruct (SendEmailRequest C body); [rewrite Hh|];
      cbn; by rewrite app_nil_r.
Qed.

Lemma unconfigured_account_witness :
  (credentials Sample.env Marketing).1 = None
  ∧ handler Sample.provider Sample.env Marketing (Sample.invite None None) Sample.start
    = (CONFIGURATION_ERROR, Sample.start).
Proof.
  destruct (unconfigured_account Sample.provider Sample.env Marketing
              (Sample.invite None None) Sample.start (or_introl eq_refl))
    as (Hhandler & _).
  split; [reflexivity | exact Hhandler].
Defined.

(** ** Requests without content *)

(** C9.  A request with neither [template] nor [html] is answered 400 and
    the world is left as it was, so nothing is compiled, rendered or sent:
    the route's schema rejects it on every account, and the handler of a
    provisioned account answers [BAD_REQUEST] itself, also when the two
    properties are present but empty. *)
Theorem missing_content_rejected (C : Collaborators) (env : gmap string string)
    (a : Account) (t : Transporter) (fromEmail fromName : option string)
    (body : Body) (w : World) :
  template body = None →
  html body = None →
  post C env a body w = ({| code := 400; payload := PValidation |}, w)
  ∧ createSendHandler C (Some t) fromEmail fromName body w = (BAD_REQUEST, w)
  ∧ code BAD_REQUEST = 400%Z
  ∧ (∀ body', has_content body' = false →
       createSendHandler C (Some t) fromEmail fromName body' w = (BAD_REQUEST, w)).
Proof.
  intros Ht Hh. split.
  - unfold post, SendEmailRequest. rewrite Ht, Hh.
    rewrite !bool_decide_eq_false_2 by (intros [? ?]; done).
    cbn. by rewrite andb_false_r.
  - split.
    + apply createSendHandler_no_content. unfold has_content. by rewrite Ht, Hh.
    + split; [done|]. intros body'. apply createSendHandler_no_content.
Qed.

Lemma missing_content_rejected_witness :
  template Sample.empty = None
  ∧ html Sample.empty = None
  ∧ post Sample.provider Sample.env General Sample.empty Sample.start
    = ({| code := 400; payload := PValidation |}, Sample.start)
  ∧ createSendHandler Sample.provider (Some Sample.gmail) (Some "no-reply@example.com")
      None Sample.empty Sample.start
    = (BAD_REQUEST, Sample.start).
Proof.
  destruct (missing_content_rejected Sample.provider Sample.env General Sample.gmail
              (Some "no-reply@example.com") None Sample.empty Sample.start
              eq_refl eq_refl) as (Hpost & Hhandler & _).
  split; [reflexivity|]. split; [reflexivity|]. split; [exact Hpost | exact Hhandler].
Defined.

(** ** The sender *)

(** C10.  A valid request whose [from] is the text Evil, a double quote
    and an address of its own in angle brackets: the display name is put
    between the quotes as it is, so the [from] of the message begins with
    the complete mailbox the handler would write for the address
    [evil@example.com], and the account's own address only follows it. *)
Lemma sender_address_injected :
  let body := Sample.forged in
  let run := createSendHandler Sample.provider (Some Sample.gmail)
               (Some "no-reply@example.com") None body in
  SendEmailRequest Sample.provider body = true
  ∧ msg_from <$> sent_mails (calls run Sample.start)
    = [sender "Evil" (Some "evil@example.com")
       +:+ JS.dquote +:+ " <no-reply@example.com>"]
  ∧ sender "Evil" (Some "evil@example.com")
    = JS.dquote +:+ "Evil" +:+ JS.dquote +:+ " <evil@example.com>".
Proof. vm_compute. repeat split. Qed.

(** X28.  The [from] header the handler of an account writes, in every
    mode: a quote, a display text, a quote, and the account's default
    sender email in angle brackets at the end; replacing the request's
    [from] leaves every message the same but for that header. *)
Theorem sender_address_fixed (C : Collaborators) (env : gmap string string)
    (a : Account) (body : Body) (w : World) :
  Forall (λ mail, ∃ display,
            msg_from mail
            = JS.dquote +:+ display +:+ JS.dquote
              +:+ " <" +:+ JS.interpolate (defaultFromEmail env a) +:+ ">")
         (sent_mails (calls (handler C env a body) w))
  ∧ ∀ userFromName w',
      without_from <$> sent_mails (calls (handler C env a (with_from userFromName body)) w')
      = without_from <$> sent_mails (calls (handler C env a body) w).
Proof.
  destruct (handler_createSendHandler C env a) as [fromName ->].
  split.
  - rewrite createSendHandler_outbox.
    destruct (createTransporter _ _ _); [|constructor].
    destruct (has_content body); [|constructor].
    eapply Forall_impl; [apply outbox_senders|].
    intros mail ->. by eexists.
  - intros userFromName w'. rewrite !createSendHandler_outbox.
    destruct (createTransporter _ _ _); [|done].
    change (has_content (with_from userFromName body)) with (has_content body).
    destruct (has_content body); [|done].
    change (individual_of (with_from userFromName body)) with (individual_of body).
    change (delaySeconds_of (with_from userFromName body)) with (delaySeconds_of body).
    rewrite (outbox_without_from C _
               (sender (displayName (from body) fromName) (defaultFromEmail env a))).
    reflexivity.
Qed.

(** * More properties of version 1.1.0 *)

(** ** Which error a response carries *)

Lemma run_mode_reply (C : Collaborators) t from_ body m w :
  (∃ err, (run_mode C t from_ body m w).1 = EMAIL_SEND_FAILED err)
  ∨ is_Some (mode_of (payload (run_mode C t from_ body m w).1)).
Proof.
  destruct m; cbn [run_mode].
  - rewrite bcc_mode_run. cbn [fst].
    destruct (transport_send C t (events w) (bcc_mail from_ body)).1; cbn; eauto.
  - unfold individual_block. destruct (compiled C body); [|cbn; eauto].
    destruct (parallel_run C t from_ body
                {| clock := clock w; events := events w ++ compile_plan body |})
      as (ok & fail & -> & _). cbn. eauto.
  - unfold individual_block. destruct (compiled C body) as [htmlTemplate|]; [|cbn; eauto].
    destruct (delayed_sequence_run C t from_ body (clock w) htmlTemplate
                {| clock := clock w; events := events w ++ compile_plan body |})
      as (ok & fail & flags & _ & -> & _). cbn. eauto.
Qed.

(** X1.  The handler of an account answers with the configuration error
    exactly when one of the account's two credential variables is unset or
    empty: a provisioned account never gives that answer, whatever the
    request and the transport do. *)
Theorem configuration_error_iff (C : Collaborators) (env : gmap string string)
    (a : Account) (body : Body) (w : World) :
  (handler C env a body w).1 = CONFIGURATION_ERROR
  ↔ JS.truthy (credentials env a).1 && JS.truthy (credentials env a).2 = false.
Proof.
  split.
  - intros Hreply.
    destruct (JS.truthy (credentials env a).1 && JS.truthy (credentials env a).2) eqn:Hcred;
      [exfalso|done].
    destruct (handler_createSendHandler C env a) as [fromName Hh].
    rewrite Hh in Hreply. unfold createTransporter in Hreply.
    rewrite <- negb_andb, Hcred in Hreply. cbn [negb] in Hreply.
    destruct (has_content body) eqn:Hc.
    + rewrite createSendHandler_run in Hreply by done.
      destruct (run_mode_reply C
                  {| auth_user := JS.interpolate (credentials env a).1;
                     auth_pass := JS.interpolate (credentials env a).2 |}
                  (sender (displayName (from body) fromName) (defaultFromEmail env a))
                  body (selectMode (individual_of body) (delaySeconds_of body)) w)
        as [[err Herr]|[label Hlabel]].
      * rewrite Herr in Hreply. discriminate Hreply.
      * rewrite Hreply in Hlabel. discriminate Hlabel.
    + rewrite createSendHandler_no_content in Hreply by done. discriminate Hreply.
  - intros Hcred. by rewrite handler_unconfigured.
Qed.

(** ** A compiler that throws *)

(** X2.  In the two individual modes a throw of [hbs.compile] goes to the
    outer [catch]: the answer is 500 [EMAIL_SEND_FAILED] with the thrown
    message, and the call to the compiler is the only call made, so
    nothing is sent to anybody. *)
Theorem compile_throw_aborts (C : Collaborators) (t : Transporter)
    (fromEmail fromName : option string) (body : Body) (err : JsError) (w : World) :
  has_content body = true →
  selectMode (individual_of body) (delaySeconds_of body) ≠ bcc →
  compiled C body = Throw err →
  let run := createSendHandler C (Some t) fromEmail fromName body in
  (run w).1 = {| code := 500; payload := PError "EMAIL_SEND_FAILED" (message err) |}
  ∧ calls run w = [ECompile (JS.interpolate (html body))]
  ∧ clock (run w).2 = clock w.
Proof.
  intros Hc Hm Herr run.
  assert (JS.truthy (html body) = true) as Hhtml.
  { unfold compiled in Herr. by destruct (JS.truthy (html body)). }
  assert (run w = (EMAIL_SEND_FAILED err,
                   {| clock := clock w;
                      events := events w ++ [ECompile (JS.interpolate (html body))] |}))
    as Hrun.
  { subst run. rewrite createSendHandler_run by done.
    destruct (selectMode (individual_of body) (delaySeconds_of body)); [done|..];
      cbn [run_mode]; unfold individual_block, compile_plan;
      by rewrite Herr, Hhtml. }
  split; [by rewrite Hrun|]. split; [|by rewrite Hrun].
  apply calls_spec. by rewrite Hrun.
Qed.

Lemma compile_throw_aborts_witness :
  let body := Sample.report (Some true) None in
  let run := createSendHandler Faulty.compiler (Some Sample.gmail)
               (Some "no-reply@example.com") None body in
  has_content body = true
  ∧ selectMode (individual_of body) (delaySeconds_of body) ≠ bcc
  ∧ compiled Faulty.compiler body = Throw Faulty.parse_error
  ∧ (run Sample.start).1
    = {| code := 500; payload := PError "EMAIL_SEND_FAILED" "Parse error on line 1" |}
  ∧ calls run Sample.start = [ECompile "<p>Hi {{name}},</p>"].
Proof.
  intros body run.
  assert (selectMode (individual_of body) (delaySeconds_of body) ≠ bcc) as Hm.
  { intros H. discriminate H. }
  destruct (compile_throw_aborts Faulty.compiler Sample.gmail (Some "no-reply@example.com")
              None body Faulty.parse_error Sample.start eq_refl Hm eq_refl)
    as (Hreply & Hcalls & _).
  split; [reflexivity|]. split; [exact Hm|]. split; [reflexivity|].
  split; [exact Hreply | exact Hcalls].
Defined.

(** ** The response of BCC mode *)

(** X3.  In BCC mode the response is made from the one promise alone:
    fulfilled, it is 200 with the transport's [messageId], [accepted] and
    [rejected] passed through; rejected, it is 500 [EMAIL_SEND_FAILED]
    with the rejection's message.  The handler takes as long as that one
    send. *)
Theorem bcc_response (C : Collaborators) (t : Transporter)
    (fromEmail fromName : option string) (body : Body) (w : World) :
  has_content body = true →
  selectMode (individual_of body) (delaySeconds_of body) = bcc →
  let from_ := sender (displayName (from body) fromName) fromEmail in
  let run := createSendHandler C (Some t) fromEmail fromName body in
  let promise := transport_send C t (events w) (bcc_mail from_ body) in
  (run w).1
  = match promise.1 with
    | Fulfilled value =>
        {| code := 200;
           payload := PBcc (messageId value) (accepted value) (rejected value) |}
    | Rejected err =>
        {| code := 500; payload := PError "EMAIL_SEND_FAILED" (message err) |}
    end
  ∧ clock (run w).2 = (clock w + Z.of_nat promise.2)%Z.
Proof.
  intros Hc Hm from_ run promise. subst run.
  rewrite createSendHandler_run, Hm by done. cbn [run_mode].
  rewrite bcc_mode_run. done.
Qed.

Lemma bcc_response_witness :
  let body := Sample.invite None None in
  let run := createSendHandler Sample.provider (Some Sample.gmail)
               (Some "no-reply@example.com") None body in
  has_content body = true
  ∧ selectMode (individual_of body) (delaySeconds_of body) = bcc
  ∧ (run Sample.start).1
    = {| code := 200; payload := PBcc "<1@mail.example>" [] [] |}
  ∧ clock (run Sample.start).2 = 50%Z.
Proof.
  intros body run.
  destruct (bcc_response Sample.provider Sample.gmail (Some "no-reply@example.com")
              None body Sample.start eq_refl eq_refl) as (Hreply & Hclock).
  split; [reflexivity|]. split; [reflexivity|]. split; [exact Hreply | exact Hclock].
Defined.

(** ** The totals of delayed mode *)

(** X5.  The response of delayed mode accounts for every recipient once:
    [totalSent] is the length of [ok], the recipients of [ok] and [fail]
    together are those of the request, and so [totalSent] and the length
    of [fail] add up to their number. *)
Theorem delayed_totals (C : Collaborators) (t : Transporter)
    (fromEmail fromName : option string) (body : Body)
    (htmlTemplate : option Template) (w : World) :
  has_content body = true →
  (0 < delaySeconds_of body)%Z →
  compiled C body = Normal htmlTemplate →
  let run := createSendHandler C (Some t) fromEmail fromName body in
  ∃ totalSent duration ok fail,
    payload (run w).1 = PDelayed totalSent duration ok fail
    ∧ totalSent = length ok
    ∧ (ok_recipient <$> ok) ++ (fail_recipient <$> fail) ≡ₚ email <$> recipients body
    ∧ (totalSent + length fail)%nat = length (recipients body).
Proof.
  intros Hc Hd Htpl run. subst run.
  rewrite createSendHandler_run by done.
  rewrite selectMode_delayed by done. cbn [run_mode].
  unfold individual_block. rewrite Htpl.
  destruct (delayed_sequence_run C t
              (sender (displayName (from body) fromName) fromEmail) body (clock w)
              htmlTemplate {| clock := clock w; events := events w ++ compile_plan body |})
    as (ok & fail & flags & Hl & Hreply & Hok & Hfail & _).
  rewrite Hreply. cbn [payload].
  assert ((ok_recipient <$> ok) ++ (fail_recipient <$> fail) ≡ₚ email <$> recipients body)
    as Hperm.
  { rewrite Hok, Hfail, <- fmap_app. by apply fmap_Permutation, pick_Permutation. }
  eexists _, _, ok, fail. split; [reflexivity|]. split; [done|]. split; [done|].
  apply Permutation_length in Hperm.
  by rewrite length_app, !length_fmap in Hperm.
Qed.

Lemma delayed_totals_witness :
  let body := Sample.invite None (Some 3%Z) in
  let run := createSendHandler Sample.provider (Some Sample.gmail)
               (Some "no-reply@example.com") None body in
  has_content body = true
  ∧ (0 < delaySeconds_of body)%Z
  ∧ ∃ totalSent duration ok fail,
      payload (run Sample.start).1 = PDelayed totalSent duration ok fail
      ∧ (totalSent + length fail)%nat = 2%nat.
Proof.
  intros body run.
  destruct (delayed_totals Sample.provider Sample.gmail (Some "no-reply@example.com")
              None body None Sample.start eq_refl eq_refl eq_refl)
    as (totalSent & duration & ok & fail & Hp & _ & _ & Hsum).
  split; [reflexivity|]. split; [reflexivity|].
  exists totalSent, duration, ok, fail. split; [exact Hp | exact Hsum].
Defined.

(** ** The response of Mode B, entry by entry *)

Lemma forEach_result_exact (recipients : list Recipient) outcomes : ∀ idx ok fail,
  (idx + length outcomes ≤ length recipients)%nat →
  forEach_result recipients idx (Some <$> outcomes) ok fail
  = Normal (ok ++ oks (zip (drop idx recipients) outcomes),
            fail ++ fails (zip (drop idx recipients) outcomes)).
Proof.
  induction outcomes as [|o outcomes IH]; intros idx ok fail Hlen.
  - cbn. unfold oks, fails. rewrite zip_with_nil_r. cbn. by rewrite !app_nil_r.
  - cbn in Hlen. cbn [fmap list_fmap forEach_result].
    destruct (lookup_lt_is_Some_2 recipients idx) as [target Ht]; [lia|].
    rewrite Ht, (drop_S _ _ _ Ht).
    destruct o as [value|reason]; rewrite IH by lia; unfold oks, fails; cbn;
      by rewrite <- ?app_assoc.
Qed.

(** X6.  The response of concurrent individual mode, entry by entry: [ok]
    has, in the order of the recipients, one entry per fulfilled promise
    with the transport's [messageId] and [accepted]; [fail] has one entry
    per rejected promise whose [error] is the rejection's message, or
    [String(reason)] when that message is empty. *)
Theorem concurrent_response (C : Collaborators) (t : Transporter)
    (fromEmail fromName : option string) (body : Body)
    (htmlTemplate : option Template) (w : World) :
  has_content body = true →
  individual_of body = true →
  delaySeconds_of body = 0%Z →
  compiled C body = Normal htmlTemplate →
  let from_ := sender (displayName (from body) fromName) fromEmail in
  let run := createSendHandler C (Some t) fromEmail fromName body in
  let promises := issued C t (events w ++ compile_plan body)
                    (parallel_mail from_ body <$> recipients body) in
  let outcomes := zip (recipients body) (fst <$> promises) in
  (run w).1 = {| code := 207; payload := PIndividual (oks outcomes) (fails outcomes) |}
  ∧ clock (run w).2 = (clock w + Z.of_nat (foldr Nat.max 0%nat (snd <$> promises)))%Z.
Proof.
  intros Hc Hi Hd Htpl from_ run promises outcomes. subst run.
  rewrite createSendHandler_run by done.
  rewrite selectMode_immediate, Hi by lia. cbn [run_mode].
  unfold individual_block. rewrite Htpl, parallel_eq. cbn [events fst snd clock].
  fold from_ promises. split; [|done].
  change (λ p : Promise, Some p.1) with (Some ∘ (fst : Promise → Settled)).
  rewrite list_fmap_compose, forEach_result_exact.
  - by rewrite drop_0.
  - subst promises. rewrite length_fmap, issued_length, length_fmap. lia.
Qed.

Lemma concurrent_response_witness :
  let body := Sample.invite (Some true) None in
  let run := createSendHandler Sample.provider (Some Sample.gmail)
               (Some "no-reply@example.com") None body in
  has_content body = true
  ∧ individual_of body = true
  ∧ delaySeconds_of body = 0%Z
  ∧ (run Sample.start).1
    = {| code := 207;
         payload := PIndividual [ok_entry Sample.alice Sample.sent;
                                 ok_entry Sample.bob Sample.sent] [] |}
  ∧ clock (run Sample.start).2 = 50%Z.
Proof.
  intros body run.
  destruct (concurrent_response Sample.provider Sample.gmail (Some "no-reply@example.com")
              None body None Sample.start eq_refl eq_refl eq_refl eq_refl)
    as (Hreply & Hclock).
  split; [reflexivity|]. split; [reflexivity|]. split; [reflexivity|].
  split; [exact Hreply | exact Hclock].
Defined.

(** ** Who the messages come from and go to *)

Lemma sender_interpolate display (address : option string) :
  sender display address = sender display (Some (JS.interpolate address)).
Proof. done. Qed.

(** X7.  The [from] header the partnership and marketing routes write:
    a quoted display text followed by the transporter's [auth.user] in
    angle brackets (these routes pass their login variable as default
    sender email).  The display text is the request's [from] as it is,
    not escaped, when it is non-empty, and "Atlaz Academy" otherwise. *)
Theorem alternate_account_sends_as_login (C : Collaborators) (env : gmap string string)
    (a : Account) (t : Transporter) (body : Body) (w : World) :
  a ≠ General →
  transporter_of env a = Some t →
  Forall (λ mail,
            msg_from mail
            = sender (if JS.truthy (from body) then JS.interpolate (from body)
                      else "Atlaz Academy")
                     (Some (auth_user t)))
         (sent_mails (calls (handler C env a body) w)).
Proof.
  intros Ha Ht.
  assert (∃ user,
            handler C env a = createSendHandler C (Some t) user (Some "Atlaz Academy")
            ∧ JS.interpolate user = auth_user t) as (user & -> & Huser).
  { destruct a; [done|..]; cbn [transporter_of handler] in *;
      unfold partnershipTransporter, marketingTransporter, createTransporter in *;
      rewrite ?Ht; destruct (negb _ || negb _); simplify_eq; eexists; done. }
  rewrite createSendHandler_outbox.
  destruct (has_content body); [|constructor].
  eapply Forall_impl; [apply outbox_senders|].
  intros mail ->. rewrite sender_interpolate, Huser. unfold displayName.
  by destruct (JS.truthy (from body)).
Qed.

Lemma alternate_account_sends_as_login_witness :
  Partnership ≠ General
  ∧ transporter_of partner_env Partnership
    = Some {| auth_user := "partnership@example.com"; auth_pass := "app-password" |}
  ∧ Forall (λ mail,
              msg_from mail
              = JS.dquote +:+ "Atlaz Education" +:+ JS.dquote
                +:+ " <partnership@example.com>")
           (sent_mails (calls (handler Sample.provider partner_env Partnership
                                 (Sample.invite (Some true) None)) Sample.start)).
Proof.
  assert (Partnership ≠ General) as Ha by (intros H; discriminate H).
  split; [exact Ha|]. split; [reflexivity|].
  exact (alternate_account_sends_as_login Sample.provider partner_env Partnership
           {| auth_user := "partnership@example.com"; auth_pass := "app-password" |}
           (Sample.invite (Some true) None) Sample.start Ha eq_refl).
Defined.

Lemma outbox_addressees (C : Collaborators) from_ body m :
  Forall (λ mail,
            msg_subject mail = subject body
            ∧ match msg_to mail with
              | Some address => msg_bcc mail = None ∧ ∃ r, r ∈ recipients body ∧ address = fmt r
              | None => msg_bcc mail = Some (String.concat ", " (fmt <$> recipients body))
              end)
         (outbox C from_ body m).
Proof.
  destruct m; cbn [outbox].
  - by repeat constructor.
  - destruct (compiled C body); [|constructor].
    apply Forall_forall. intros mail Hin.
    apply list_elem_of_fmap in Hin as (r & -> & Hr). cbn. eauto.
  - destruct (compiled C body) as [htmlTemplate|]; [|constructor].
    apply Forall_forall. intros mail Hin.
    apply list_elem_of_omap in Hin as (r & Hr & Hmail).
    unfold attempted_mail in Hmail.
    destruct htmlTemplate as [tpl|]; [destruct (tpl (fields r))|];
      simplify_eq; cbn; eauto.
Qed.

(** X8.  Whatever the mode, the account and the transport, a message the
    handler sends has the subject of the request unchanged, and its
    addressee fields are made from the recipient list of the request
    alone: either [to] is the formatted entry [fmt(r)] of one recipient
    [r] of the request and there is no [bcc], or there is no [to] and
    [bcc] is the formatted entries of all recipients, in order, joined by
    a comma and a space.  (A formatted entry holds [r.name] as it is, not
    escaped.) *)
Theorem addressees_from_request (C : Collaborators) (ti : option Transporter)
    (fromEmail fromName : option string) (body : Body) (w : World) :
  Forall (λ mail,
            msg_subject mail = subject body
            ∧ match msg_to mail with
              | Some address => msg_bcc mail = None ∧ ∃ r, r ∈ recipients body ∧ address = fmt r
              | None => msg_bcc mail = Some (String.concat ", " (fmt <$> recipients body))
              end)
         (sent_mails (calls (createSendHandler C ti fromEmail fromName body) w)).
Proof.
  rewrite createSendHandler_outbox.
  destruct ti; [|constructor]. destruct (has_content body); [|constructor].
  apply outbox_addressees.
Qed.

(** * Version 1.0.0 *)

Lemma send_email_1_0_events (C : Collaborators) t env body w :
  events (send_email_1_0 C t env body w).2
  = events w
    ++ (let from_ := sender (displayName (from body) (env !! "FROM_NAME"))
                       (env !! "FROM_EMAIL") in
        if has_content body
        then if individual_of body
             then (ESendMail <$> (parallel_mail from_ body <$> recipients body))
                  ++ [EAwait (length (recipients body))]
             else [ESendMail (bcc_mail from_ body); EAwait 1]
        else []).
Proof.
  unfold send_email_1_0, has_content. rewrite <- negb_orb.
  destruct (JS.truthy (template body) || JS.truthy (html body)); cbn [negb].
  - destruct (individual_of body).
    + by rewrite parallel_eq.
    + by rewrite bcc_mode_run.
  - cbn. by rewrite app_nil_r.
Qed.

(** X9.  Version 1.0.0 never calls the template engine or the timer: its
    log is one [sendMail] per recipient and one wait for all of them in
    individual mode, and one awaited [sendMail] otherwise.  In individual
    mode every recipient gets the same content: the raw HTML as it came
    (placeholders included) or the template with the global context. *)
Theorem version_1_0_log (C : Collaborators) (t : Transporter)
    (env : gmap string string) (body : Body) (w : World) :
  has_content body = true →
  let from_ := sender (displayName (from body) (env !! "FROM_NAME")) (env !! "FROM_EMAIL") in
  let content := if JS.truthy (template body)
                 then TemplateContent (JS.interpolate (template body)) (context_of body)
                 else HtmlContent (html body) in
  calls (send_email_1_0 C t env body) w
  = (if individual_of body
     then (ESendMail <$> (parallel_mail from_ body <$> recipients body))
          ++ [EAwait (length (recipients body))]
     else [ESendMail (bcc_mail from_ body); EAwait 1])
  ∧ Forall (λ mail, msg_content mail = content)
           (sent_mails (calls (send_email_1_0 C t env body) w)).
Proof.
  intros Hc from_ content.
  assert (calls (send_email_1_0 C t env body) w
          = if individual_of body
            then (ESendMail <$> (parallel_mail from_ body <$> recipients body))
                 ++ [EAwait (length (recipients body))]
            else [ESendMail (bcc_mail from_ body); EAwait 1]) as Hcalls.
  { apply calls_spec. by rewrite send_email_1_0_events, Hc. }
  split; [exact Hcalls|]. rewrite Hcalls.
  destruct (individual_of body).
  - rewrite sent_mails_app, sent_mails_sends, app_nil_r.
    by apply Forall_fmap, Forall_true.
  - by repeat constructor.
Qed.

Lemma version_1_0_log_witness :
  let body := Sample.report (Some true) None in
  has_content body = true
  ∧ Forall (λ mail, msg_content mail = HtmlContent (Some "<p>Hi {{name}},</p>"))
           (sent_mails (calls (send_email_1_0 Sample.provider Sample.gmail
                                 complete_env body) Sample.start)).
Proof.
  intros body.
  destruct (version_1_0_log Sample.provider Sample.gmail complete_env body
              Sample.start eq_refl) as (_ & Hcontent).
  split; [reflexivity | exact Hcontent].
Defined.



(** ** The check of the environment at start *)

Lemma truthy_Some (s : option string) :
  JS.truthy s = true → ∃ v, s = Some v ∧ v ≠ EmptyString.
Proof. destruct s as [[|c v]|]; [done| |done]. intros _. by eexists. Qed.

Lemma env_warning_silent env :
  env_warning env = None ↔ Forall (λ k, JS.truthy (env !! k) = true) requiredEnv.
Proof.
  unfold env_warning, missing, requiredEnv. cbn [List.filter].
  split.
  - intros H.
    destruct (JS.truthy (env !! "SMTP_PORT")) eqn:H1,
      (JS.truthy (env !! "SMTP_USER")) eqn:H2,
      (JS.truthy (env !! "SMTP_PASS")) eqn:H3,
      (JS.truthy (env !! "FROM_EMAIL")) eqn:H4,
      (JS.truthy (env !! "FROM_NAME")) eqn:H5; cbn in H; try discriminate H.
    repeat (apply Forall_cons; split; [done|]). constructor.
  - intros H. repeat (apply Forall_cons in H as [-> H]). done.
Qed.

(** X11.  When the check of version 1.0.0 at start logs no warning, the
    sender of every message is well defined: the address is the non-empty
    [FROM_EMAIL] and the display name is the request's non-empty [from] or
    else the non-empty [FROM_NAME]; neither is ever the text "undefined"
    of a missing variable, nor the fallback "No-Reply". *)
Theorem silent_start_defined_sender (C : Collaborators) (t : Transporter)
    (env : gmap string string) (body : Body) (w : World) :
  env_warning env = None →
  ∃ address display,
    env !! "FROM_EMAIL" = Some address ∧ address ≠ EmptyString
    ∧ env !! "FROM_NAME" = Some display ∧ display ≠ EmptyString
    ∧ Forall (λ mail,
                msg_from mail
                = JS.dquote
                  +:+ (if JS.truthy (from body) then JS.interpolate (from body) else display)
                  +:+ JS.dquote +:+ " <" +:+ address +:+ ">")
             (sent_mails (calls (send_email_1_0 C t env body) w)).
Proof.
  intros Hsilent. apply env_warning_silent in Hsilent.
  unfold requiredEnv in Hsilent.
  do 3 (apply Forall_cons in Hsilent as [_ Hsilent]).
  apply Forall_cons in Hsilent as [Haddress Hsilent].
  apply Forall_cons in Hsilent as [Hdisplay _].
  pose proof Hdisplay as Hdisplay'.
  apply truthy_Some in Haddress as (address & Ha & Hane).
  apply truthy_Some in Hdisplay as (display & Hn & Hnne).
  exists address, display. repeat split; try done.
  erewrite calls_spec; [|apply send_email_1_0_events].
  cbn zeta. unfold displayName. rewrite Hdisplay', Ha, Hn.
  destruct (has_content body); [|constructor].
  destruct (individual_of body).
  - rewrite sent_mails_app, sent_mails_sends, app_nil_r.
    by apply Forall_fmap, Forall_true.
  - by repeat constructor.
Qed.

Lemma silent_start_defined_sender_witness :
  env_warning complete_env = None
  ∧ Forall (λ mail,
              msg_from mail
              = JS.dquote +:+ "Hiatlaz" +:+ JS.dquote +:+ " <no-reply@example.com>")
           (sent_mails (calls (send_email_1_0 Sample.provider Sample.gmail complete_env
                                 (Sample.report None None)) Sample.start)).
Proof.
  destruct (silent_start_defined_sender Sample.provider Sample.gmail complete_env
              (Sample.report None None) Sample.start eq_refl)
    as (address & display & Ha & _ & Hn & _ & Hfrom).
  split; [reflexivity|].
  injection Ha as <-. injection Hn as <-. exact Hfrom.
Defined.

(** * The first version *)

Lemma send_email_0_events (C : Collaborators) t env b w :
  events (send_email_0 C t env b w).2
  = events w
    ++ (let from_ := sender (JS.interpolate (from0 b)) (env !! "FROM_EMAIL") in
        if default false (individual0 b)
        then (ESendMail <$> (parallel_mail from_ (later_body b) <$> recipients0 b))
             ++ [EAwait (length (recipients0 b))]
        else [ESendMail (bcc_mail from_ (later_body b)); EAwait 1]).
Proof.
  unfold send_email_0. destruct (default false (individual0 b)).
  - by rewrite parallel_eq.
  - by rewrite bcc_mode_run.
Qed.

(** X12.  The first version has no fallback for the display name: a
    request without [from] is sent under the name "undefined", one
    message per recipient in individual mode and one message otherwise
    (there is no guard that answers 400). *)
Theorem first_version_unnamed_sender (C : Collaborators) (t : Transporter)
    (env : gmap string string) (b : Body0) (w : World) :
  from0 b = None →
  let sent := sent_mails (calls (send_email_0 C t env b) w) in
  Forall (λ mail,
            msg_from mail
            = JS.dquote +:+ "undefined" +:+ JS.dquote
              +:+ " <" +:+ JS.interpolate (env !! "FROM_EMAIL") +:+ ">")
         sent
  ∧ length sent = if default false (individual0 b) then length (recipients0 b) else 1%nat.
Proof.
  intros Hfrom sent. subst sent.
  erewrite calls_spec; [|apply send_email_0_events].
  cbn zeta. rewrite Hfrom. destruct (default false (individual0 b)).
  - rewrite sent_mails_app, sent_mails_sends, app_nil_r. split.
    + by apply Forall_fmap, Forall_true.
    + by rewrite length_fmap.
  - split; [by repeat constructor|done].
Qed.

Lemma first_version_unnamed_sender_witness :
  from0 Faulty.legacy = None
  ∧ Forall (λ mail,
              msg_from mail
              = JS.dquote +:+ "undefined" +:+ JS.dquote +:+ " <no-reply@example.com>")
           (sent_mails (calls (send_email_0 Sample.provider Sample.gmail
                                 complete_env Faulty.legacy) Sample.start)).
Proof.
  destruct (first_version_unnamed_sender Sample.provider Sample.gmail complete_env
              Faulty.legacy Sample.start eq_refl) as (Hfrom & _).
  split; [reflexivity | exact Hfrom].
Defined.

(** X13.  Version 1.0.0 serves a request of the first version as before
    when it names its sender: with a non-empty [from] and non-empty raw
    HTML, response and world are the same.  Without [from] only the
    sender differs (the fallback name instead of "undefined"): the
    messages are the same apart from it. *)
Theorem version_1_0_serves_first (C : Collaborators) (t : Transporter)
    (env : gmap string string) (b : Body0) (w : World) :
  html0 b ≠ EmptyString →
  (∀ display, from0 b = Some display → display ≠ EmptyString →
     send_email_1_0 C t env (later_body b) w = send_email_0 C t env b w)
  ∧ without_from <$> sent_mails (calls (send_email_1_0 C t env (later_body b)) w)
    = without_from <$> sent_mails (calls (send_email_0 C t env b) w).
Proof.
  intros Hhtml.
  assert (has_content (later_body b) = true) as Hc.
  { unfold has_content. cbn. by destruct (html0 b). }
  split.
  - intros display Hfrom Hne. unfold send_email_1_0, send_email_0.
    unfold has_content in Hc. rewrite <- negb_orb, Hc. cbn [negb].
    change (individual_of (later_body b)) with (default false (individual0 b)).
    change (from (later_body b)) with (from0 b).
    rewrite Hfrom. unfold displayName. cbn. by destruct display.
  - erewrite !calls_spec; [|apply send_email_0_events|apply send_email_1_0_events].
    rewrite Hc. cbn zeta.
    change (individual_of (later_body b)) with (default false (individual0 b)).
    change (recipients (later_body b)) with (recipients0 b).
    destruct (default false (individual0 b)).
    + rewrite !sent_mails_app, !sent_mails_sends, !app_nil_r.
      rewrite <- !list_fmap_compose. by apply list_fmap_ext.
    + done.
Qed.

Lemma version_1_0_serves_first_witness :
  let b := {| recipients0 := [Sample.alice];
              subject0 := "Hello";
              html0 := "<h1>Hello</h1>";
              from0 := Some "Atlaz Team";
              individual0 := Some true |} in
  html0 b ≠ EmptyString
  ∧ send_email_1_0 Sample.provider Sample.gmail complete_env (later_body b) Sample.start
    = send_email_0 Sample.provider Sample.gmail complete_env b Sample.start.
Proof.
  intros b.
  assert (html0 b ≠ EmptyString) as Hhtml by (intros H; discriminate H).
  destruct (version_1_0_serves_first Sample.provider Sample.gmail complete_env b
              Sample.start Hhtml) as (Hsame & _).
  split; [exact Hhtml|].
  apply (Hsame "Atlaz Team" eq_refl). intros H. discriminate H.
Defined.

(** * Version 2.0.0 *)

Ltac v2_unfold :=
  unfold mbind, mret, V2.IO_bind, V2.IO_ret, V2.render, V2.sendMail, V2.await,
    V2.sleep, V2.compile, V2.Date_now, V2.log, V2.tick in *; cbn in *.

Lemma v2_sent_mails_app evs1 evs2 :
  V2.sent_mails (evs1 ++ evs2) = V2.sent_mails evs1 ++ V2.sent_mails evs2.
Proof. apply omap_app. Qed.

Lemma v2_sleeps_app evs1 evs2 :
  V2.sleeps (evs1 ++ evs2) = V2.sleeps evs1 ++ V2.sleeps evs2.
Proof. apply omap_app. Qed.

Lemma v2_renders_app evs1 evs2 :
  V2.renders (evs1 ++ evs2) = V2.renders evs1 ++ V2.renders evs2.
Proof. apply omap_app. Qed.

Lemma v2_calls_spec {A} (m : V2.IO A) w evs :
  V2.events (m w).2 = V2.events w ++ evs → V2.calls m w = evs.
Proof. intros H. unfold V2.calls. by rewrite H, drop_app_length. Qed.

Lemma v2_plan_cons {A B} (P : nat → A → list B) index r rs :
  concat (imap (λ i, P (index + i)%nat) (r :: rs))
  = P index r ++ concat (imap (λ i, P (S index + i)%nat) rs).
Proof.
  cbn [imap concat]. rewrite Nat.add_0_r. do 2 f_equal.
  apply imap_ext. intros. cbn. f_equal. lia.
Qed.

(** ** The loop *)

Section V2Loop.
Variable C : V2.Collaborators.
Variable t : Transporter.
Variable from_ : string.
Variable body : V2.Body.
Variable htmlCompiler : option Template.

Lemma v2_try_send_events r w :
  V2.events (V2.try_send C t from_ body htmlCompiler r w).2
  = V2.events w ++ V2.try_plan from_ body htmlCompiler r.
Proof.
  unfold V2.try_send, V2.try_plan, V2.mail_for.
  destruct (JS.truthy (V2.template body)); [v2_unfold; by rewrite <- app_assoc|].
  destruct htmlCompiler as [tpl|]; v2_unfold.
  - destruct (tpl _); cbn; by rewrite <- ?app_assoc.
  - by rewrite <- app_assoc.
Qed.

(** A message whose render throws is never sent, and its recipient
    fails. *)
Lemma v2_try_send_throw r err w :
  V2.mail_for from_ body htmlCompiler r = Throw err →
  (V2.try_send C t from_ body htmlCompiler r w).1 = Throw err.
Proof.
  unfold V2.try_send, V2.mail_for.
  destruct (JS.truthy (V2.template body)); [done|].
  destruct htmlCompiler as [tpl|]; [|done]. v2_unfold.
  destruct (tpl _); [done|]. cbn. congruence.
Qed.

Lemma v2_loop_events rs : ∀ idx ok fail w,
  V2.events (V2.loop C t from_ body htmlCompiler idx rs ok fail w).2
  = V2.events w
    ++ concat (imap (λ i r,
                       (if (0 <? idx + i)%nat && (0 <? V2.delaySeconds_of body)%Z
                        then [V2.ESleep (V2.delaySeconds_of body * 1000)]
                        else [])
                       ++ V2.try_plan from_ body htmlCompiler r)
                    rs).
Proof.
  induction rs as [|r rs IH]; intros idx ok fail w.
  - cbn. by rewrite app_nil_r.
  - rewrite (v2_plan_cons
               (λ i r, (if (0 <? i)%nat && (0 <? V2.delaySeconds_of body)%Z
                        then [V2.ESleep (V2.delaySeconds_of body * 1000)] else [])
                       ++ V2.try_plan from_ body htmlCompiler r)).
    cbn [V2.loop]. unfold mbind, V2.IO_bind.
    destruct ((0 <? idx)%nat && (0 <? V2.delaySeconds_of body)%Z).
    + cbn [V2.sleep].
      pose proof (v2_try_send_events r
                    (V2.tick (V2.timer_wait C (V2.delaySeconds_of body * 1000))
                       (V2.log (V2.ESleep (V2.delaySeconds_of body * 1000)) w))) as He.
      destruct (V2.try_send C t from_ body htmlCompiler r _) as [[value|err] w1];
        rewrite IH; cbn [snd] in He; rewrite He; cbn; by rewrite <- !app_assoc.
    + unfold mret, V2.IO_ret.
      pose proof (v2_try_send_events r w) as He.
      destruct (V2.try_send C t from_ body htmlCompiler r w) as [[value|err] w1];
        rewrite IH; cbn [snd] in He; rewrite He; cbn; by rewrite <- !app_assoc.
Qed.

(** Every recipient of the loop ends in exactly one of [ok] and [fail],
    in the order of the request. *)
Lemma v2_loop_result rs : ∀ idx ok fail w,
  ∃ ok' fail',
    (V2.loop C t from_ body htmlCompiler idx rs ok fail w).1 = (ok ++ ok', fail ++ fail')
    ∧ (V2.ok_recipient <$> ok') ++ (fail_recipient <$> fail') ≡ₚ V2.email <$> rs
    ∧ sublist (V2.ok_recipient <$> ok') (V2.email <$> rs)
    ∧ sublist (fail_recipient <$> fail') (V2.email <$> rs)
    ∧ Forall (λ e, V2.ok_status e = "sent") ok'.
Proof.
  induction rs as [|r rs IH]; intros idx ok fail w.
  - exists [], []. cbn. rewrite !app_nil_r. repeat split; constructor.
  - cbn [V2.loop]. unfold mbind, V2.IO_bind.
    destruct ((if (0 <? idx)%nat && (0 <? V2.delaySeconds_of body)%Z
               then V2.sleep C (V2.delaySeconds_of body * 1000) else mret ()) w)
      as [[] w0].
    destruct (V2.try_send C t from_ body htmlCompiler r w0) as [[value|err] w1].
    + destruct (IH (S idx)
                  (ok ++ [{| V2.ok_recipient := V2.email r;
                             V2.ok_messageId := Some (messageId value);
                             V2.ok_status := "sent" |}]) fail w1)
        as (ok' & fail' & Hres & Hperm & Hok & Hfail & Hsent).
      eexists (_ :: ok'), fail'. rewrite Hres, <- app_assoc.
      split; [done|]. cbn. split; [by constructor|].
      split; [by constructor|]. split; [by constructor|]. by constructor.
    + destruct (IH (S idx) ok
                  (fail ++ [{| fail_recipient := V2.email r;
                               fail_error := message err |}]) w1)
        as (ok' & fail' & Hres & Hperm & Hok & Hfail & Hsent).
      eexists ok', (_ :: fail'). rewrite Hres, <- app_assoc.
      split; [done|]. cbn. split.
      { rewrite <- Hperm. symmetry. apply Permutation_middle. }
      split; [by constructor|]. split; [by constructor|]. done.
Qed.

(** What is in [fail] stays there. *)
Lemma v2_loop_fail_kept rs : ∀ idx ok fail w e,
  e ∈ fail → e ∈ (V2.loop C t from_ body htmlCompiler idx rs ok fail w).1.2.
Proof.
  intros idx ok fail w e He.
  destruct (v2_loop_result rs idx ok fail w) as (ok' & fail' & -> & _).
  apply elem_of_app. by left.
Qed.

Lemma v2_loop_throw rs : ∀ idx ok fail w r err,
  r ∈ rs →
  V2.mail_for from_ body htmlCompiler r = Throw err →
  {| fail_recipient := V2.email r; fail_error := message err |}
  ∈ (V2.loop C t from_ body htmlCompiler idx rs ok fail w).1.2.
Proof.
  induction rs as [|r0 rs IH]; intros idx ok fail w r err Hin Hthrow.
  { by apply elem_of_nil in Hin. }
  cbn [V2.loop]. unfold mbind, V2.IO_bind.
  destruct ((if (0 <? idx)%nat && (0 <? V2.delaySeconds_of body)%Z
             then V2.sleep C (V2.delaySeconds_of body * 1000) else mret ()) w)
    as [[] w0].
  apply elem_of_cons in Hin as [->|Hin].
  - pose proof (v2_try_send_throw r0 err w0 Hthrow) as Htry.
    destruct (V2.try_send C t from_ body htmlCompiler r0 w0) as [res w1].
    cbn in Htry. subst res.
    apply v2_loop_fail_kept, elem_of_app. right. by apply list_elem_of_singleton.
  - destruct (V2.try_send C t from_ body htmlCompiler r0 w0) as [[value|err0] w1];
      by apply IH.
Qed.

Lemma v2_individual_dynamic_events startTime w :
  V2.events (V2.individual_dynamic C t from_ body startTime htmlCompiler w).2
  = V2.events w ++ V2.loop_plan from_ body htmlCompiler (V2.recipients body).
Proof.
  unfold V2.individual_dynamic, mbind, V2.IO_bind.
  pose proof (v2_loop_events (V2.recipients body) 0 [] [] w) as He.
  destruct (V2.loop C t from_ body htmlCompiler 0 (V2.recipients body) [] [] w)
    as [[ok fail] w1].
  cbn in He. cbn. exact He.
Qed.

Lemma v2_individual_dynamic_reply startTime w :
  ∃ duration ok fail,
    (V2.individual_dynamic C t from_ body startTime htmlCompiler w).1
    = {| V2.code := 200; V2.payload := V2.PDynamic (length ok) duration ok fail |}
    ∧ (V2.ok_recipient <$> ok) ++ (fail_recipient <$> fail)
      ≡ₚ V2.email <$> V2.recipients body
    ∧ sublist (V2.ok_recipient <$> ok) (V2.email <$> V2.recipients body)
    ∧ sublist (fail_recipient <$> fail) (V2.email <$> V2.recipients body)
    ∧ Forall (λ e, V2.ok_status e = "sent") ok
    ∧ (∀ r err, r ∈ V2.recipients body →
         V2.mail_for from_ body htmlCompiler r = Throw err →
         {| fail_recipient := V2.email r; fail_error := message err |} ∈ fail).
Proof.
  unfold V2.individual_dynamic, mbind, V2.IO_bind.
  destruct (v2_loop_result (V2.recipients body) 0 [] [] w)
    as (ok & fail & Hres & Hperm & Hok & Hfail & Hsent).
  pose proof (λ r err, v2_loop_throw (V2.recipients body) 0 [] [] w r err) as Hthrow.
  destruct (V2.loop C t from_ body htmlCompiler 0 (V2.recipients body) [] [] w)
    as [[ok0 fail0] w1].
  cbn in Hres. injection Hres as -> ->.
  eexists _, ok, fail. cbn. split; [reflexivity|]. repeat split; try done.
Qed.
End V2Loop.

(** ** The plans *)

Lemma v2_sent_mails_try_plan from_ body hc r :
  V2.sent_mails (V2.try_plan from_ body hc r)
  = match V2.mail_for from_ body hc r with
    | Normal mail => [mail]
    | Throw _ => []
    end.
Proof.
  unfold V2.try_plan. rewrite v2_sent_mails_app.
  destruct (JS.truthy (V2.template body)); [|destruct hc];
    by destruct (V2.mail_for from_ body _ r).
Qed.

Lemma v2_sleeps_try_plan from_ body hc r :
  V2.sleeps (V2.try_plan from_ body hc r) = [].
Proof.
  unfold V2.try_plan. rewrite v2_sleeps_app.
  destruct (JS.truthy (V2.template body)); [|destruct hc];
    by destruct (V2.mail_for from_ body _ r).
Qed.

Lemma v2_renders_try_plan from_ body hc r :
  V2.renders (V2.try_plan from_ body hc r)
  = if JS.truthy (V2.template body) then []
    else match hc with Some _ => [V2.combinedContext body r] | None => [] end.
Proof.
  unfold V2.try_plan. rewrite v2_renders_app.
  destruct (JS.truthy (V2.template body)); [|destruct hc];
    by destruct (V2.mail_for from_ body _ r).
Qed.

Lemma v2_loop_plan_cons from_ body hc r rs :
  V2.loop_plan from_ body hc (r :: rs)
  = V2.try_plan from_ body hc r
    ++ concat ((λ r, (if (0 <? V2.delaySeconds_of body)%Z
                      then [V2.ESleep (V2.delaySeconds_of body * 1000)] else [])
                     ++ V2.try_plan from_ body hc r) <$> rs).
Proof.
  unfold V2.loop_plan. cbn [imap concat]. cbn. f_equal. f_equal.
  induction rs as [|r0 rs IH]; [done|]. cbn. f_equal. exact IH.
Qed.

Lemma v2_sent_mails_loop_plan from_ body hc rs :
  V2.sent_mails (V2.loop_plan from_ body hc rs)
  = omap (λ r, match V2.mail_for from_ body hc r with
               | Normal mail => Some mail
               | Throw _ => None
               end) rs.
Proof.
  destruct rs as [|r rs]; [done|].
  rewrite v2_loop_plan_cons, v2_sent_mails_app, v2_sent_mails_try_plan.
  cbn [omap list_omap].
  assert (V2.sent_mails
            (concat ((λ r, (if (0 <? V2.delaySeconds_of body)%Z
                            then [V2.ESleep (V2.delaySeconds_of body * 1000)] else [])
                           ++ V2.try_plan from_ body hc r) <$> rs))
          = omap (λ r, match V2.mail_for from_ body hc r with
                       | Normal mail => Some mail
                       | Throw _ => None
                       end) rs) as ->.
  { induction rs as [|r0 rs IH]; [done|].
    cbn [fmap list_fmap concat]. rewrite !v2_sent_mails_app, IH, v2_sent_mails_try_plan.
    cbn [omap list_omap].
    destruct (0 <? V2.delaySeconds_of body)%Z;
      by destruct (V2.mail_for from_ body hc r0). }
  by destruct (V2.mail_for from_ body hc r).
Qed.

Lemma v2_sleeps_loop_plan from_ body hc rs :
  V2.sleeps (V2.loop_plan from_ body hc rs)
  = if (0 <? V2.delaySeconds_of body)%Z
    then replicate (length rs - 1) (V2.delaySeconds_of body * 1000)%Z
    else [].
Proof.
  destruct rs as [|r rs]; [by destruct (0 <? _)%Z|].
  rewrite v2_loop_plan_cons, v2_sleeps_app, v2_sleeps_try_plan.
  cbn [length app]. rewrite Nat.sub_succ, Nat.sub_0_r.
  induction rs as [|r0 rs IH]; [by destruct (0 <? _)%Z|].
  cbn [fmap list_fmap concat length]. rewrite !v2_sleeps_app, IH, v2_sleeps_try_plan.
  by destruct (0 <? V2.delaySeconds_of body)%Z.
Qed.

Lemma v2_renders_loop_plan from_ body hc rs :
  V2.renders (V2.loop_plan from_ body hc rs)
  = if JS.truthy (V2.template body) then []
    else match hc with
         | Some _ => V2.combinedContext body <$> rs
         | None => []
         end.
Proof.
  assert (∀ rs,
            V2.renders
              (concat ((λ r, (if (0 <? V2.delaySeconds_of body)%Z
                              then [V2.ESleep (V2.delaySeconds_of body * 1000)] else [])
                             ++ V2.try_plan from_ body hc r) <$> rs))
            = if JS.truthy (V2.template body) then []
              else match hc with
                   | Some _ => V2.combinedContext body <$> rs
                   | None => []
                   end) as Hrest.
  { clear rs. induction rs as [|r0 rs IH].
    - destruct (JS.truthy _); [done|by destruct hc].
    - cbn [fmap list_fmap concat]. rewrite !v2_renders_app, IH, v2_renders_try_plan.
      destruct (0 <? V2.delaySeconds_of body)%Z;
        (destruct (JS.truthy (V2.template body)); [done|by destruct hc]). }
  destruct rs as [|r rs].
  - destruct (JS.truthy _); [done|by destruct hc].
  - rewrite v2_loop_plan_cons, v2_renders_app, Hrest, v2_renders_try_plan.
    destruct (JS.truthy (V2.template body)); [done|by destruct hc].
Qed.

(** ** The handler *)

Lemma v2_compiled_html C body hc :
  V2.compiled C body = Normal hc →
  bool_decide (is_Some hc) = JS.truthy (V2.html body).
Proof.
  unfold V2.compiled. destruct (JS.truthy (V2.html body)).
  - destruct (V2.handlebars_compile C _); [|done]. by intros [= <-].
  - by intros [= <-].
Qed.

Lemma v2_takes_bcc_spec body :
  V2.takes_bcc body = true
  ↔ V2.individual_of body = false
    ∧ (V2.delaySeconds_of body ≤ 0)%Z
    ∧ JS.truthy (V2.html body) = false.
Proof.
  unfold V2.takes_bcc.
  destruct (V2.individual_of body), (JS.truthy (V2.html body)),
    (Z.ltb_spec 0 (V2.delaySeconds_of body)); cbn; split; try done;
    intros (? & ? & ?); try done; lia.
Qed.

(** The handler with a transporter and an HTML that compiles, if any:
    the compile step, then one of the two modes. *)
Lemma v2_createSendHandler_run C t fromEmail fromName body hc w :
  V2.compiled C body = Normal hc →
  let from_ := V2.fromAddress body fromEmail fromName in
  let w0 := {| V2.clock := V2.clock w;
               V2.events := V2.events w ++ V2.compile_plan body |} in
  V2.createSendHandler C (Some t) fromEmail fromName body w
  = if V2.takes_bcc body
    then V2.bcc_bulk C t from_ body w0
    else V2.individual_dynamic C t from_ body (V2.clock w) hc w0.
Proof.
  intros Hc from_ w0.
  pose proof (v2_compiled_html C body hc Hc) as Hsome.
  unfold V2.createSendHandler, V2.takes_bcc. fold from_.
  unfold V2.compiled in Hc. subst w0. unfold V2.compile_plan.
  destruct (JS.truthy (V2.html body)); v2_unfold.
  - destruct (V2.handlebars_compile C _) as [tpl|]; [|done].
    injection Hc as <-. cbn. by rewrite orb_true_r, andb_false_r.
  - injection Hc as <-. cbn. rewrite app_nil_r.
    destruct w as [c evs]. cbn.
    by destruct (V2.individual_of body), (0 <? V2.delaySeconds_of body)%Z.
Qed.

Lemma v2_bcc_bulk_events C t from_ body w :
  V2.events (V2.bcc_bulk C t from_ body w).2
  = V2.events w ++ [V2.ESendMail (V2.bcc_mail from_ body); V2.EAwait].
Proof. unfold V2.bcc_bulk. v2_unfold. by rewrite <- app_assoc. Qed.

Lemma v2_createSendHandler_events C t fromEmail fromName body hc w :
  V2.compiled C body = Normal hc →
  let from_ := V2.fromAddress body fromEmail fromName in
  V2.events (V2.createSendHandler C (Some t) fromEmail fromName body w).2
  = V2.events w
    ++ (V2.compile_plan body
        ++ if V2.takes_bcc body
           then [V2.ESendMail (V2.bcc_mail from_ body); V2.EAwait]
           else V2.loop_plan from_ body hc (V2.recipients body)).
Proof.
  intros Hc from_. rewrite (v2_createSendHandler_run C t fromEmail fromName body hc w Hc).
  fold from_. destruct (V2.takes_bcc body).
  - rewrite v2_bcc_bulk_events. cbn. by rewrite <- app_assoc.
  - rewrite v2_individual_dynamic_events. cbn. by rewrite <- app_assoc.
Qed.

Lemma v2_createSendHandler_throw C t fromEmail fromName body err w :
  V2.compiled C body = Throw err →
  V2.createSendHandler C (Some t) fromEmail fromName body w
  = (V2.HTML_ERROR, {| V2.clock := V2.clock w;
                       V2.events := V2.events w ++ V2.compile_plan body |}).
Proof.
  unfold V2.compiled, V2.createSendHandler, V2.compile_plan.
  destruct (JS.truthy (V2.html body)); [|done]. v2_unfold.
  by destruct (V2.handlebars_compile C _).
Qed.

(** The messages handed to the transport, whatever the request. *)
Lemma v2_createSendHandler_outbox C t fromEmail fromName body w :
  let from_ := V2.fromAddress body fromEmail fromName in
  V2.sent_mails (V2.calls (V2.createSendHandler C (Some t) fromEmail fromName body) w)
  = match V2.compiled C body with
    | Throw _ => []
    | Normal hc =>
        if V2.takes_bcc body then [V2.bcc_mail from_ body]
        else omap (λ r, match V2.mail_for from_ body hc r with
                        | Normal mail => Some mail
                        | Throw _ => None
                        end) (V2.recipients body)
    end.
Proof.
  intros from_. destruct (V2.compiled C body) as [hc|err] eqn:Hc.
  - erewrite v2_calls_spec; [|by apply v2_createSendHandler_events].
    fold from_. rewrite v2_sent_mails_app.
    assert (V2.sent_mails (V2.compile_plan body) = []) as ->.
    { unfold V2.compile_plan. by destruct (JS.truthy _). }
    destruct (V2.takes_bcc body); [done|]. apply v2_sent_mails_loop_plan.
  - erewrite v2_calls_spec.
    2:{ rewrite (v2_createSendHandler_throw C t fromEmail fromName body err w Hc).
        reflexivity. }
    unfold V2.compile_plan. by destruct (JS.truthy _).
Qed.

Lemma v2_mail_for_shape from_ body hc r mail :
  V2.mail_for from_ body hc r = Normal mail →
  V2.mail_from mail = from_
  ∧ V2.mail_to mail = Some (V2.fmt r)
  ∧ V2.mail_bcc mail = None
  ∧ V2.mail_subject mail = V2.subject body.
Proof.
  unfold V2.mail_for.
  destruct (JS.truthy (V2.template body)); [by intros [= <-]|].
  destruct hc as [tpl|]; [|by intros [= <-]].
  destruct (tpl _); [|done]. by intros [= <-].
Qed.

Lemma v2_call_log_aux C t fromEmail fromName body hc w :
  V2.compiled C body = Normal hc →
  V2.calls (V2.createSendHandler C (Some t) fromEmail fromName body) w
  = V2.compile_plan body
    ++ if V2.takes_bcc body
       then [V2.ESendMail (V2.bcc_mail (V2.fromAddress body fromEmail fromName) body);
             V2.EAwait]
       else V2.loop_plan (V2.fromAddress body fromEmail fromName) body hc
              (V2.recipients body).
Proof. intros Hc. apply v2_calls_spec. by apply v2_createSendHandler_events. Qed.

(** ** The call log of version 2.0.0 *)

(** X14.  Version 2.0.0, with a transporter and a raw HTML that compiles
    (if there is one): the handler compiles the HTML once, then either
    hands one BCC message to the transport, or walks the recipients in
    order, each iteration sleeping first (from the second recipient on,
    and only for a positive delay), rendering the HTML against the
    merged context when that is the content, and sending and awaiting
    its message before the next iteration starts. *)
Theorem v2_call_log (C : V2.Collaborators) (t : Transporter)
    (fromEmail fromName : option string) (body : V2.Body)
    (htmlCompiler : option Template) (w : V2.World) :
  V2.compiled C body = Normal htmlCompiler →
  let from_ := V2.fromAddress body fromEmail fromName in
  V2.calls (V2.createSendHandler C (Some t) fromEmail fromName body) w
  = V2.compile_plan body
    ++ if V2.takes_bcc body
       then [V2.ESendMail (V2.bcc_mail from_ body); V2.EAwait]
       else V2.loop_plan from_ body htmlCompiler (V2.recipients body).
Proof.
  intros Hc from_. apply v2_calls_spec. by apply v2_createSendHandler_events.
Qed.

Lemma v2_call_log_witness :
  let body := V2.blast None (Some "{{city}}") (Some false) (Some 2%Z) in
  let from_ := V2.fromAddress body (Some "no-reply@example.com") None in
  V2.calls (V2.createSendHandler V2.provider (Some V2.gmail)
              (Some "no-reply@example.com") None body) V2.start
  = [V2.ECompile "{{city}}";
     V2.ERender (V2.combinedContext body V2.sari);
     V2.ESendMail (V2.html_mail from_ body V2.sari "Bandung");
     V2.EAwait;
     V2.ESleep 2000;
     V2.ERender (V2.combinedContext body V2.dimas);
     V2.ESendMail (V2.html_mail from_ body V2.dimas "Jakarta");
     V2.EAwait].
Proof.
  intros body from_.
  exact (v2_call_log V2.provider V2.gmail (Some "no-reply@example.com") None body _
           V2.start eq_refl).
Defined.

(** X15.  Version 2.0.0 uses BCC only for a request with [individual]
    false, no positive delay and no raw HTML.  In every other case
    ([individual] absent counts as true) no message carries a [bcc], each
    message goes to one recipient of the request, and the response is
    never the one of BCC mode. *)
Theorem v2_individual_unless_plain_bcc (C : V2.Collaborators) (t : Transporter)
    (fromEmail fromName : option string) (body : V2.Body) (w : V2.World) :
  V2.individual body ≠ Some false
  ∨ (0 < V2.delaySeconds_of body)%Z
  ∨ JS.truthy (V2.html body) = true →
  let run := V2.createSendHandler C (Some t) fromEmail fromName body in
  Forall (λ mail, V2.mail_bcc mail = None
                  ∧ ∃ r, r ∈ V2.recipients body ∧ V2.mail_to mail = Some (V2.fmt r))
         (V2.sent_mails (V2.calls run w))
  ∧ V2.mode_of (V2.payload (run w).1) ≠ Some "bcc_bulk".
Proof.
  intros Hcase run.
  assert (V2.takes_bcc body = false) as Hbcc.
  { apply not_true_is_false. intros (Hi & Hd & Hh)%v2_takes_bcc_spec.
    destruct Hcase as [Hcase|[Hcase|Hcase]]; [|lia|congruence].
    apply Hcase. unfold V2.individual_of in Hi.
    by destruct (V2.individual body) as [[]|]. }
  split.
  - subst run. rewrite v2_createSendHandler_outbox, Hbcc.
    destruct (V2.compiled C body) as [hc|err]; [|constructor].
    apply Forall_forall. intros mail (r & Hin & Hmail)%list_elem_of_omap.
    destruct (V2.mail_for _ body hc r) as [mail'|] eqn:Hfor; [|done].
    injection Hmail as ->.
    apply v2_mail_for_shape in Hfor as (_ & Hto & Hnone & _).
    split; [done|]. by exists r.
  - subst run. destruct (V2.compiled C body) as [hc|err] eqn:Hc.
    + rewrite (v2_createSendHandler_run C t fromEmail fromName body hc w Hc), Hbcc.
      destruct (v2_individual_dynamic_reply C t (V2.fromAddress body fromEmail fromName)
                  body hc (V2.clock w)
                  {| V2.clock := V2.clock w;
                     V2.events := V2.events w ++ V2.compile_plan body |})
        as (duration & ok & fail & -> & _).
      done.
    + by rewrite (v2_createSendHandler_throw C t fromEmail fromName body err w Hc).
Qed.

Lemma v2_individual_unless_plain_bcc_witness :
  let body := V2.blast None (Some "{{city}}") (Some false) None in
  let run := V2.createSendHandler V2.provider (Some V2.gmail)
               (Some "no-reply@example.com") None body in
  JS.truthy (V2.html body) = true
  ∧ V2.mode_of (V2.payload (run V2.start).1) ≠ Some "bcc_bulk".
Proof.
  intros body run.
  destruct (v2_individual_unless_plain_bcc V2.provider V2.gmail
              (Some "no-reply@example.com") None body V2.start
              (or_intror (or_intror eq_refl))) as (_ & Hmode).
  split; [reflexivity | exact Hmode].
Defined.

(** ** The response of individual mode *)

(** X16.  The response of the individual mode of version 2.0.0 has status
    200 whatever the outcomes, [totalSent] is the length of [ok], every
    [ok] entry has status ["sent"], and every recipient is in exactly one
    of [ok] and [fail], each list in the order of the request. *)
Theorem v2_every_recipient_accounted (C : V2.Collaborators) (t : Transporter)
    (fromEmail fromName : option string) (body : V2.Body)
    (htmlCompiler : option Template) (w : V2.World) :
  V2.compiled C body = Normal htmlCompiler →
  V2.takes_bcc body = false →
  let run := V2.createSendHandler C (Some t) fromEmail fromName body in
  ∃ duration ok fail,
    (run w).1 = {| V2.code := 200;
                   V2.payload := V2.PDynamic (length ok) duration ok fail |}
    ∧ (V2.ok_recipient <$> ok) ++ (fail_recipient <$> fail)
      ≡ₚ V2.email <$> V2.recipients body
    ∧ sublist (V2.ok_recipient <$> ok) (V2.email <$> V2.recipients body)
    ∧ sublist (fail_recipient <$> fail) (V2.email <$> V2.recipients body)
    ∧ Forall (λ e, V2.ok_status e = "sent") ok.
Proof.
  intros Hc Hbcc run. subst run.
  rewrite (v2_createSendHandler_run C t fromEmail fromName body htmlCompiler w Hc), Hbcc.
  destruct (v2_individual_dynamic_reply C t (V2.fromAddress body fromEmail fromName)
              body htmlCompiler (V2.clock w)
              {| V2.clock := V2.clock w;
                 V2.events := V2.events w ++ V2.compile_plan body |})
    as (duration & ok & fail & Hreply & Hperm & Hok & Hfail & Hsent & _).
  by exists duration, ok, fail.
Qed.

Lemma v2_every_recipient_accounted_witness :
  let body := V2.blast (Some "promo") None None None in
  let run := V2.createSendHandler V2.provider (Some V2.gmail)
               (Some "no-reply@example.com") None body in
  V2.takes_bcc body = false
  ∧ ∃ duration ok fail,
      (run V2.start).1 = {| V2.code := 200;
                            V2.payload := V2.PDynamic (length ok) duration ok fail |}
      ∧ (V2.ok_recipient <$> ok) ++ (fail_recipient <$> fail)
        ≡ₚ ["sari@school.id"; "dimas@school.id"].
Proof.
  intros body run.
  destruct (v2_every_recipient_accounted V2.provider V2.gmail
              (Some "no-reply@example.com") None body None V2.start eq_refl eq_refl)
    as (duration & ok & fail & Hreply & Hperm & _).
  split; [reflexivity|].
  exists duration, ok, fail. split; [exact Hreply | exact Hperm].
Defined.

(** X17.  In the individual mode of version 2.0.0 a recipient whose raw
    HTML throws when rendered gets a [fail] entry with the thrown
    message and no message: the messages handed to the transport are
    exactly the rendered HTML of the recipients whose render succeeds,
    in the order of the request. *)
Theorem v2_render_failure_isolated (C : V2.Collaborators) (t : Transporter)
    (fromEmail fromName : option string) (body : V2.Body) (tpl : Template)
    (w : V2.World) :
  V2.compiled C body = Normal (Some tpl) →
  JS.truthy (V2.template body) = false →
  let from_ := V2.fromAddress body fromEmail fromName in
  let run := V2.createSendHandler C (Some t) fromEmail fromName body in
  (∀ r err,
     r ∈ V2.recipients body →
     tpl (V2.combinedContext body r) = Throw err →
     {| fail_recipient := V2.email r; fail_error := message err |}
     ∈ V2.reply_fail (run w).1)
  ∧ (∀ r rendered,
       r ∈ V2.recipients body →
       tpl (V2.combinedContext body r) = Normal rendered →
       V2.html_mail from_ body r rendered ∈ V2.sent_mails (V2.calls run w))
  ∧ V2.sent_mails (V2.calls run w)
    = omap (λ r, match tpl (V2.combinedContext body r) with
                 | Normal rendered => Some (V2.html_mail from_ body r rendered)
                 | Throw _ => None
                 end)
           (V2.recipients body).
Proof.
  intros Hc Htemplate from_ run.
  assert (V2.takes_bcc body = false) as Hbcc.
  { apply not_true_is_false. intros (_ & _ & Hh)%v2_takes_bcc_spec.
    pose proof (v2_compiled_html C body _ Hc) as Hsome.
    rewrite Hh in Hsome. apply bool_decide_eq_false in Hsome.
    apply Hsome. by eexists. }
  split; [|split].
  - intros r err Hin Hthrow. subst run.
    rewrite (v2_createSendHandler_run C t fromEmail fromName body _ w Hc), Hbcc.
    subst from_.
    destruct (v2_individual_dynamic_reply C t (V2.fromAddress body fromEmail fromName)
                body (Some tpl) (V2.clock w)
                {| V2.clock := V2.clock w;
                   V2.events := V2.events w ++ V2.compile_plan body |})
      as (duration & ok & fail & -> & _ & _ & _ & _ & Hfail).
    apply (Hfail r err Hin). unfold V2.mail_for. by rewrite Htemplate, Hthrow.
  - intros r rendered Hin Hok. subst run.
    rewrite v2_createSendHandler_outbox, Hc, Hbcc.
    apply list_elem_of_omap. exists r. split; [done|].
    unfold V2.mail_for. by rewrite Htemplate, Hok.
  - subst run. rewrite v2_createSendHandler_outbox, Hc, Hbcc. fold from_.
    induction (V2.recipients body) as [|r rs IH]; [done|].
    cbn [omap list_omap]. rewrite IH. unfold V2.mail_for. rewrite Htemplate.
    by destruct (tpl (V2.combinedContext body r)).
Qed.

Lemma v2_render_failure_isolated_witness :
  let from_ := V2.fromAddress V2.offer (Some "no-reply@example.com") None in
  let run := V2.createSendHandler V2.conditional (Some V2.gmail)
               (Some "no-reply@example.com") None V2.offer in
  JS.truthy (V2.template V2.offer) = false
  ∧ V2.rina ∈ V2.recipients V2.offer
  ∧ {| fail_recipient := "rina@school.id";
       fail_error := "Missing helper: " +:+ JS.dquote +:+ "discount" +:+ JS.dquote |}
    ∈ V2.reply_fail (run V2.start).1
  ∧ V2.sent_mails (V2.calls run V2.start)
    = [V2.html_mail from_ V2.offer V2.dimas EmptyString].
Proof.
  intros from_ run.
  assert (V2.rina ∈ V2.recipients V2.offer) as Hin by left.
  destruct (v2_render_failure_isolated V2.conditional V2.gmail
              (Some "no-reply@example.com") None V2.offer _ V2.start eq_refl eq_refl)
    as (Hfail & _ & Hsent).
  split; [reflexivity|]. split; [exact Hin|].
  split; [exact (Hfail V2.rina _ Hin eq_refl) | exact Hsent].
Defined.

(** ** The merged context *)

(** X18.  In the individual mode of version 2.0.0 the data of each
    message is the global context overlaid with the recipient's own
    columns: a file template gets it as the message's [context], a raw
    HTML is rendered against it, once per recipient in order; a key of
    the recipient wins over the same key of the global context, and a key
    only the global context has is kept. *)
Theorem v2_merged_context (C : V2.Collaborators) (t : Transporter)
    (fromEmail fromName : option string) (body : V2.Body)
    (htmlCompiler : option Template) (w : V2.World) :
  V2.compiled C body = Normal htmlCompiler →
  V2.takes_bcc body = false →
  let from_ := V2.fromAddress body fromEmail fromName in
  let run := V2.createSendHandler C (Some t) fromEmail fromName body in
  (JS.truthy (V2.template body) = true →
   V2.mail_context <$> V2.sent_mails (V2.calls run w)
   = (λ r, Some (V2.combinedContext body r)) <$> V2.recipients body)
  ∧ (JS.truthy (V2.template body) = false →
     JS.truthy (V2.html body) = true →
     V2.renders (V2.calls run w) = V2.combinedContext body <$> V2.recipients body)
  ∧ (∀ r key value,
       V2.fields r !! key = Some value →
       V2.combinedContext body r !! key = Some value)
  ∧ (∀ r key,
       V2.fields r !! key = None →
       V2.combinedContext body r !! key = V2.context_of body !! key).
Proof.
  intros Hc Hbcc from_ run. split; [|split; [|split]].
  - intros Htemplate. subst run.
    rewrite v2_createSendHandler_outbox, Hc, Hbcc.
    induction (V2.recipients body) as [|r rs IH]; [done|].
    cbn [omap list_omap]. unfold V2.mail_for at 1. rewrite Htemplate.
    cbn. by rewrite <- IH.
  - intros Htemplate Hhtml. subst run.
    rewrite (v2_call_log_aux C t fromEmail fromName body htmlCompiler w Hc), Hbcc.
    rewrite v2_renders_app, v2_renders_loop_plan, Htemplate.
    pose proof (v2_compiled_html C body _ Hc) as Hsome. rewrite Hhtml in Hsome.
    apply bool_decide_eq_true in Hsome as [tpl ->].
    unfold V2.compile_plan. by rewrite Hhtml.
  - intros r key value Hkey. unfold V2.combinedContext.
    by apply lookup_union_Some_l.
  - intros r key Hkey. unfold V2.combinedContext. by apply lookup_union_r.
Qed.

Lemma v2_merged_context_witness :
  let body := V2.blast None (Some "{{city}}") None None in
  let run := V2.createSendHandler V2.provider (Some V2.gmail)
               (Some "no-reply@example.com") None body in
  V2.takes_bcc body = false
  ∧ JS.truthy (V2.template body) = false
  ∧ JS.truthy (V2.html body) = true
  ∧ V2.renders (V2.calls run V2.start)
    = [V2.combinedContext body V2.sari; V2.combinedContext body V2.dimas]
  ∧ V2.combinedContext body V2.sari !! "city" = Some (JStr "Bandung")
  ∧ V2.combinedContext body V2.dimas !! "city" = Some (JStr "Jakarta").
Proof.
  intros body run.
  destruct (v2_merged_context V2.provider V2.gmail (Some "no-reply@example.com") None
              body _ V2.start eq_refl eq_refl) as (_ & Hrenders & Hown & Hglobal).
  split; [reflexivity|]. split; [reflexivity|]. split; [reflexivity|].
  split; [exact (Hrenders eq_refl eq_refl)|].
  split.
  - apply (Hown V2.sari). vm_compute. reflexivity.
  - rewrite (Hglobal V2.dimas); vm_compute; reflexivity.
Defined.

(** X19.  A request of version 2.0.0 with a file template and a raw HTML:
    the template wins.  The HTML is compiled once but never rendered and
    is in no message; its presence still forces the individual mode, so
    every recipient gets a message of its own with the template and the
    merged context. *)
Theorem v2_template_precedence (C : V2.Collaborators) (t : Transporter)
    (fromEmail fromName : option string) (body : V2.Body)
    (htmlCompiler : option Template) (w : V2.World) :
  V2.compiled C body = Normal htmlCompiler →
  JS.truthy (V2.template body) = true →
  JS.truthy (V2.html body) = true →
  let from_ := V2.fromAddress body fromEmail fromName in
  let run := V2.createSendHandler C (Some t) fromEmail fromName body in
  V2.sent_mails (V2.calls run w) = V2.template_mail from_ body <$> V2.recipients body
  ∧ V2.renders (V2.calls run w) = []
  ∧ V2.calls run w !! 0%nat = Some (V2.ECompile (JS.interpolate (V2.html body))).
Proof.
  intros Hc Htemplate Hhtml from_ run.
  assert (V2.takes_bcc body = false) as Hbcc.
  { unfold V2.takes_bcc. by rewrite Hhtml, andb_false_r. }
  subst run. split; [|split].
  - rewrite v2_createSendHandler_outbox, Hc, Hbcc. fold from_.
    induction (V2.recipients body) as [|r rs IH]; [done|].
    cbn [omap list_omap]. unfold V2.mail_for at 1. rewrite Htemplate.
    cbn. by rewrite <- IH.
  - rewrite (v2_call_log_aux C t fromEmail fromName body htmlCompiler w Hc), Hbcc.
    rewrite v2_renders_app, v2_renders_loop_plan, Htemplate.
    unfold V2.compile_plan. by rewrite Hhtml.
  - rewrite (v2_call_log_aux C t fromEmail fromName body htmlCompiler w Hc).
    unfold V2.compile_plan. by rewrite Hhtml.
Qed.

Lemma v2_template_precedence_witness :
  let body := V2.blast (Some "promo") (Some "{{city}}") (Some false) None in
  let from_ := V2.fromAddress body (Some "no-reply@example.com") None in
  let run := V2.createSendHandler V2.provider (Some V2.gmail)
               (Some "no-reply@example.com") None body in
  JS.truthy (V2.template body) = true
  ∧ JS.truthy (V2.html body) = true
  ∧ V2.sent_mails (V2.calls run V2.start)
    = [V2.template_mail from_ body V2.sari; V2.template_mail from_ body V2.dimas]
  ∧ V2.renders (V2.calls run V2.start) = [].
Proof.
  intros body from_ run.
  destruct (v2_template_precedence V2.provider V2.gmail (Some "no-reply@example.com")
              None body _ V2.start eq_refl eq_refl eq_refl) as (Hsent & Hrenders & _).
  split; [reflexivity|]. split; [reflexivity|].
  split; [exact Hsent | exact Hrenders].
Defined.

(** ** Requests without content *)

(** X20.  Version 2.0.0 does not reject a request without [template] and
    without [html]: the status is never 400, and the handler sends
    anyway.  In individual mode every recipient gets the fixed text
    ["No content provided."]; in BCC mode the one message has neither
    HTML nor template. *)
Theorem v2_no_content_still_sends (C : V2.Collaborators) (t : Transporter)
    (fromEmail fromName : option string) (body : V2.Body) (w : V2.World) :
  JS.truthy (V2.template body) = false →
  JS.truthy (V2.html body) = false →
  let from_ := V2.fromAddress body fromEmail fromName in
  let run := V2.createSendHandler C (Some t) fromEmail fromName body in
  V2.code (run w).1 ≠ 400%Z
  ∧ V2.sent_mails (V2.calls run w)
    = if V2.takes_bcc body then [V2.bcc_mail from_ body]
      else V2.text_mail from_ body <$> V2.recipients body.
Proof.
  intros Htemplate Hhtml from_ run.
  assert (V2.compiled C body = Normal None) as Hc.
  { unfold V2.compiled. by rewrite Hhtml. }
  subst run. split.
  - rewrite (v2_createSendHandler_run C t fromEmail fromName body None w Hc).
    destruct (V2.takes_bcc body).
    + unfold V2.bcc_bulk. v2_unfold. by destruct (V2.transport_send C t _ _).1.
    + subst from_.
      destruct (v2_individual_dynamic_reply C t (V2.fromAddress body fromEmail fromName)
                  body None (V2.clock w)
                  {| V2.clock := V2.clock w;
                     V2.events := V2.events w ++ V2.compile_plan body |})
        as (duration & ok & fail & -> & _).
      done.
  - rewrite v2_createSendHandler_outbox, Hc. fold from_.
    destruct (V2.takes_bcc body); [done|].
    induction (V2.recipients body) as [|r rs IH]; [done|].
    cbn [omap list_omap]. unfold V2.mail_for at 1. rewrite Htemplate.
    cbn. by rewrite <- IH.
Qed.

Lemma v2_no_content_still_sends_witness :
  let body := V2.blast None None None None in
  let from_ := V2.fromAddress body (Some "no-reply@example.com") None in
  let run := V2.createSendHandler V2.provider (Some V2.gmail)
               (Some "no-reply@example.com") None body in
  JS.truthy (V2.template body) = false
  ∧ JS.truthy (V2.html body) = false
  ∧ V2.code (run V2.start).1 ≠ 400%Z
  ∧ V2.sent_mails (V2.calls run V2.start)
    = [V2.text_mail from_ body V2.sari; V2.text_mail from_ body V2.dimas].
Proof.
  intros body from_ run.
  destruct (v2_no_content_still_sends V2.provider V2.gmail
              (Some "no-reply@example.com") None body V2.start eq_refl eq_refl)
    as (Hcode & Hsent).
  split; [reflexivity|]. split; [reflexivity|].
  split; [exact Hcode | exact Hsent].
Defined.

(** ** BCC mode *)

(** X22.  The response of the BCC mode of version 2.0.0.  When the one
    send is fulfilled the handler replies 200 and passes to [reply.send]
    the transport's [messageId], every recipient of the request listed
    in order as ["bcc_sent"] (whatever the transport accepted or
    rejected) and an empty [fail]; when it is rejected, 500 [BCC_FAILED]
    with the rejection's message. *)
Theorem v2_bcc_response (C : V2.Collaborators) (t : Transporter)
    (fromEmail fromName : option string) (body : V2.Body) (w : V2.World) :
  V2.takes_bcc body = true →
  let from_ := V2.fromAddress body fromEmail fromName in
  let run := V2.createSendHandler C (Some t) fromEmail fromName body in
  (run w).1
  = match (V2.transport_send C t (V2.events w) (V2.bcc_mail from_ body)).1 with
    | Fulfilled value =>
        {| V2.code := 200;
           V2.payload :=
             V2.PBulk (messageId value)
               ((λ r, {| V2.ok_recipient := V2.email r;
                         V2.ok_messageId := None;
                         V2.ok_status := "bcc_sent" |}) <$> V2.recipients body)
               [] |}
    | Rejected err =>
        {| V2.code := 500; V2.payload := V2.PError "BCC_FAILED" (message err) |}
    end.
Proof.
  intros Hbcc from_ run. subst run.
  pose proof Hbcc as (_ & _ & Hhtml)%v2_takes_bcc_spec.
  assert (V2.compiled C body = Normal None) as Hc.
  { unfold V2.compiled. by rewrite Hhtml. }
  rewrite (v2_createSendHandler_run C t fromEmail fromName body None w Hc), Hbcc.
  unfold V2.compile_plan. rewrite Hhtml, app_nil_r.
  unfold V2.bcc_bulk. v2_unfold. done.
Qed.

Lemma v2_bcc_response_witness :
  let body := V2.blast (Some "promo") None (Some false) None in
  let run := V2.createSendHandler V2.provider (Some V2.gmail)
               (Some "no-reply@example.com") None body in
  V2.takes_bcc body = true
  ∧ (run V2.start).1
    = {| V2.code := 200;
         V2.payload :=
           V2.PBulk "<2@mail.example>"
             [{| V2.ok_recipient := "sari@school.id"; V2.ok_messageId := None;
                 V2.ok_status := "bcc_sent" |};
              {| V2.ok_recipient := "dimas@school.id"; V2.ok_messageId := None;
                 V2.ok_status := "bcc_sent" |}]
             [] |}.
Proof.
  intros body run. split; [reflexivity|].
  exact (v2_bcc_response V2.provider V2.gmail (Some "no-reply@example.com") None body
           V2.start eq_refl).
Defined.

(** ** Pauses *)

(** X23.  The pauses of version 2.0.0: with a positive [delaySeconds] the
    handler sleeps [delaySeconds * 1000] ms once per recipient after the
    first, so one time less than there are recipients; with a zero or
    negative one it never sleeps. *)
Theorem v2_pauses (C : V2.Collaborators) (t : Transporter)
    (fromEmail fromName : option string) (body : V2.Body)
    (htmlCompiler : option Template) (w : V2.World) :
  V2.compiled C body = Normal htmlCompiler →
  let run := V2.createSendHandler C (Some t) fromEmail fromName body in
  V2.sleeps (V2.calls run w)
  = if (0 <? V2.delaySeconds_of body)%Z
    then replicate (length (V2.recipients body) - 1) (V2.delaySeconds_of body * 1000)%Z
    else [].
Proof.
  intros Hc run. subst run.
  rewrite (v2_call_log_aux C t fromEmail fromName body htmlCompiler w Hc).
  rewrite v2_sleeps_app.
  assert (V2.sleeps (V2.compile_plan body) = []) as ->.
  { unfold V2.compile_plan. by destruct (JS.truthy _). }
  destruct (V2.takes_bcc body) eqn:Hbcc.
  - apply v2_takes_bcc_spec in Hbcc as (_ & Hd & _).
    by destruct (Z.ltb_spec 0 (V2.delaySeconds_of body)); [lia|].
  - apply v2_sleeps_loop_plan.
Qed.

Lemma v2_pauses_witness :
  let body := V2.blast (Some "promo") None None (Some 2%Z) in
  let run := V2.createSendHandler V2.provider (Some V2.gmail)
               (Some "no-reply@example.com") None body in
  V2.sleeps (V2.calls run V2.start) = [2000%Z].
Proof.
  intros body run.
  exact (v2_pauses V2.provider V2.gmail (Some "no-reply@example.com") None body None
           V2.start eq_refl).
Defined.

(** ** The sender *)

Lemma v2_finalSenderName_nonempty override fallback :
  V2.finalSenderName override fallback ≠ EmptyString.
Proof.
  unfold V2.finalSenderName.
  destruct override as [[|c s]|]; cbn; try done;
    by destruct fallback as [[|c' s']|].
Qed.

(** X24.  The [from] header version 2.0.0 writes, on every route and in
    both modes: a quote, a display text, a quote, and in angle brackets
    the route's default sender email (the login variable on the two
    alternates).  The display text is the request's [from] as it is, not
    escaped, when it is non-empty, else the route's name, else "Atlaz";
    it is never empty. *)
Theorem v2_sender_of_route (C : V2.Collaborators) (env : gmap string string)
    (a : Account) (body : V2.Body) (w : V2.World) :
  let display := V2.finalSenderName (V2.from body) (V2.defaultFromName env a) in
  display ≠ EmptyString
  ∧ Forall (λ mail,
              V2.mail_from mail
              = JS.dquote +:+ display +:+ JS.dquote +:+ " <"
                +:+ JS.interpolate (defaultFromEmail env a) +:+ ">")
           (V2.sent_mails (V2.calls (V2.handler C env a body) w)).
Proof.
  intros display. split; [apply v2_finalSenderName_nonempty|].
  unfold V2.handler. destruct (transporter_of env a) as [t|].
  2:{ rewrite (v2_calls_spec _ w []) by (cbn; by rewrite app_nil_r). constructor. }
  rewrite v2_createSendHandler_outbox.
  destruct (V2.compiled C body) as [hc|err]; [|constructor].
  destruct (V2.takes_bcc body); [by repeat constructor|].
  apply Forall_forall. intros mail (r & Hin & Hmail)%list_elem_of_omap.
  destruct (V2.mail_for _ body hc r) as [mail'|] eqn:Hfor; [|done].
  injection Hmail as ->.
  by apply v2_mail_for_shape in Hfor as (-> & _).
Qed.
